(** * A book catalog with owner-scoped mutation: the handlers of [app.py]

    The development embeds the request handlers of the Flask application
    ([register], [me], [list_books], [get_book], [create_book],
    [update_book], [delete_book]), the [require_auth] decorator and the
    helpers they call, and proves properties of them.

    Conventions of the embedding.
    - A request body is the value [request.get_json()] hands to the handler:
      a decoded JSON value ([pyval]).  Numbers are Python [int]s or [float]s;
      a float is finite or, by overflow of a literal such as [1e999],
      infinite.
    - Python [str] is [string]; a character is a code point below 256, and
      [String.length] is [len].
    - A [Book] instance is its attribute dictionary ([obj]): this is what
      [hasattr], [setattr] and attribute reads act on.
    - A handler either returns a response or ends in an exception that no
      [except] clause of the program catches ([Raise]); the store it leaves
      behind is returned in both cases.
    - The library is a parameter ([Library]): werkzeug's
      [check_password_hash] and [generate_password_hash] (with the salt it
      draws made explicit), each of which returns or raises; Python's [int]
      on a [str]; and the depth of nesting beyond which [asdict] and
      [jsonify] end in [RecursionError].
    - [users.json] is what reading it yields ([users_file]), and a write to
      it ends in one of three ways ([write_result]). *)

From Stdlib Require Import ZArith String Ascii List Bool.
From stdpp Require Import base option list strings gmap fin_maps.

Local Open Scope string_scope.
Local Set Warnings "-register-all".

(** ** Uncaught exceptions *)

Inductive exn : Type :=
| TypeError
| ValueError
| AttributeError
| OverflowError
| KeyError
| RecursionError.

#[global] Instance exn_eq_dec : EqDecision exn.
Proof. solve_decision. Defined.

Inductive result (A : Type) : Type :=
| Ok (a : A)
| Raise (e : exn).

Arguments Ok {A} a.
Arguments Raise {A} e.

#[global] Instance result_ret : MRet result := fun A a => Ok a.
#[global] Instance result_bind : MBind result := fun A B f r =>
  match r with
  | Ok a => f a
  | Raise e => Raise e
  end.

Definition is_ok {A} (r : result A) : bool :=
  match r with Ok _ => true | Raise _ => false end.

(** ** Characters and strings *)

Definition code (c : ascii) : N := N_of_ascii c.

Definition between (lo hi : N) (c : ascii) : bool :=
  ((lo <=? code c) && (code c <=? hi))%N.

(** [str.isdigit] on one character: the ASCII digits and the superscripts
    two, three and one. *)
Definition isdigit (c : ascii) : bool :=
  between 48 57 c || between 178 179 c || between 185 185 c.

(** [str.isalpha] on one character. *)
Definition isalpha (c : ascii) : bool :=
  between 65 90 c || between 97 122 c
  || between 170 170 c || between 181 181 c || between 186 186 c
  || between 192 214 c || between 216 246 c || between 248 255 c.

(** [str.isspace] on one character; the characters [str.strip] removes. *)
Definition isspace (c : ascii) : bool :=
  between 9 13 c || between 28 32 c || between 133 133 c || between 160 160 c.

Fixpoint chars (s : string) : list ascii :=
  match s with
  | EmptyString => []
  | String c s' => c :: chars s'
  end.

Fixpoint lstrip (s : string) : string :=
  match s with
  | EmptyString => EmptyString
  | String c s' => if isspace c then lstrip s' else s
  end.

Fixpoint rstrip (s : string) : string :=
  match s with
  | EmptyString => EmptyString
  | String c s' =>
      match rstrip s' with
      | EmptyString => if isspace c then EmptyString else String c EmptyString
      | r => String c r
      end
  end.

(** [s.strip()] *)
Definition strip (s : string) : string := rstrip (lstrip s).

(** [s.isdigit()] and [s.isalpha()] on a whole string: every character
    qualifies and there is at least one. *)
Definition str_isdigit (s : string) : bool :=
  negb (bool_decide (s = "")) && forallb isdigit (chars s).

Definition str_isalpha (s : string) : bool :=
  negb (bool_decide (s = "")) && forallb isalpha (chars s).

(** [sep.join(l)] *)
Fixpoint join (sep : string) (l : list string) : string :=
  match l with
  | [] => ""
  | [x] => x
  | x :: rest => x ++ sep ++ join sep rest
  end.

(** ** Decoded JSON values *)

(** A float with value [(-1)^neg * m * 2^e], or an infinity. *)
Inductive pyfloat : Type :=
| FFin (neg : bool) (m : N) (e : Z)
| FInf (neg : bool).

Inductive pyval : Type :=
| PNone
| PBool (b : bool)
| PInt (z : Z)
| PFloat (f : pyfloat)
| PStr (s : string)
| PList (l : list pyval)
| PDict (d : list (string * pyval)).

(** A [PDict] lists the items of a Python [dict] in insertion order; its keys
    are pairwise distinct. *)
Definition dict : Type := list (string * pyval).

(** Truth value of an object, as [not], [or] and [if] take it. *)
Definition truthy (v : pyval) : bool :=
  match v with
  | PNone => false
  | PBool b => b
  | PInt z => negb (z =? 0)%Z
  | PFloat (FFin _ m _) => negb (m =? 0)%N
  | PFloat (FInf _) => true
  | PStr s => negb (bool_decide (s = ""))
  | PList l => negb (bool_decide (l = []))
  | PDict d => negb (bool_decide (d = []))
  end.

(** [x or y] *)
Definition py_or (x y : pyval) : pyval := if truthy x then x else y.

(** [d.get(k)] on a dict, [k in d], [d.pop(k, None)], [d[k] = v] *)
Fixpoint dict_get (d : dict) (k : string) : option pyval :=
  match d with
  | [] => None
  | (k', v) :: rest => if decide (k' = k) then Some v else dict_get rest k
  end.

Definition dict_mem (d : dict) (k : string) : bool :=
  bool_decide (is_Some (dict_get d k)).

Fixpoint dict_pop (d : dict) (k : string) : dict :=
  match d with
  | [] => []
  | (k', v) :: rest =>
      if decide (k' = k) then dict_pop rest k else (k', v) :: dict_pop rest k
  end.

Fixpoint dict_set (d : dict) (k : string) (v : pyval) : dict :=
  match d with
  | [] => [(k, v)]
  | (k', v') :: rest =>
      if decide (k' = k) then (k, v) :: rest else (k', v') :: dict_set rest k v
  end.

(** ** Conversions and protocols of the values *)

(** [int(x)] on a float: truncation toward zero; an infinity has no integer
    value. *)
Definition float_trunc (neg : bool) (m : N) (e : Z) : Z :=
  let mag := Z.shiftl (Z.of_N m) e in
  if neg then (- mag)%Z else mag.

(** [len(x)] *)
Definition py_len (v : pyval) : result nat :=
  match v with
  | PStr s => Ok (String.length s)
  | PList l => Ok (length l)
  | PDict d => Ok (length d)
  | _ => Raise TypeError
  end.

(** The elements [for c in x] goes through: the characters of a string, the
    elements of a list, the keys of a dict. *)
Definition py_iter (v : pyval) : result (list pyval) :=
  match v with
  | PStr s => Ok (map (fun c => PStr (String c EmptyString)) (chars s))
  | PList l => Ok l
  | PDict d => Ok (map (fun kv => PStr (fst kv)) d)
  | _ => Raise TypeError
  end.

(** [c.isdigit()] and [c.isalpha()]: methods of [str] only. *)
Definition method_isdigit (c : pyval) : result bool :=
  match c with
  | PStr s => Ok (str_isdigit s)
  | _ => Raise AttributeError
  end.

Definition method_isalpha (c : pyval) : result bool :=
  match c with
  | PStr s => Ok (str_isalpha s)
  | _ => Raise AttributeError
  end.

(** [any(f(c) for c in l)]: stops at the first true element. *)
Fixpoint py_any (f : pyval -> result bool) (l : list pyval) : result bool :=
  match l with
  | [] => Ok false
  | c :: rest => b ← f c; if b : bool then Ok true else py_any f rest
  end.

(** [data.get(k)]: only a dict has the method. *)
Definition method_get (data : pyval) (k : string) : result pyval :=
  match data with
  | PDict d => Ok (default PNone (dict_get d k))
  | _ => Raise AttributeError
  end.

(** [data.pop(k, None)], as the dict it leaves: [list.pop] takes at most one
    argument, the other values have no such method. *)
Definition method_pop (data : pyval) (k : string) : result dict :=
  match data with
  | PDict d => Ok (dict_pop d k)
  | PList _ => Raise TypeError
  | _ => Raise AttributeError
  end.

(** [x.strip()]: a method of [str] only. *)
Definition method_strip (x : pyval) : result string :=
  match x with
  | PStr s => Ok (strip s)
  | _ => Raise AttributeError
  end.

(** [x != s] for a string [s]: a value of another type is never equal to
    it. *)
Definition py_ne_str (x : pyval) (s : string) : bool :=
  match x with
  | PStr s' => negb (bool_decide (s' = s))
  | _ => true
  end.

(** ** Keys of the catalog *)

(** The keys of the [books] dict, up to Python's equality of hashable values:
    [True == 1 == 1.0] are one key. *)
Inductive key : Type :=
| KNone
| KStr (s : string)
| KInt (z : Z)
| KFrac (neg : bool) (m : positive) (e : positive)
| KInf (neg : bool).

#[global] Instance key_eq_dec : EqDecision key.
Proof. solve_decision. Defined.

Definition key_enc (k : key) : unit + string + Z + (bool * positive * positive) + bool :=
  match k with
  | KNone => inl (inl (inl (inl tt)))
  | KStr s => inl (inl (inl (inr s)))
  | KInt z => inl (inl (inr z))
  | KFrac n m e => inl (inr (n, m, e))
  | KInf n => inr n
  end.

Definition key_dec (x : unit + string + Z + (bool * positive * positive) + bool) : key :=
  match x with
  | inl (inl (inl (inl _))) => KNone
  | inl (inl (inl (inr s))) => KStr s
  | inl (inl (inr z)) => KInt z
  | inl (inr (n, m, e)) => KFrac n m e
  | inr n => KInf n
  end.

#[global] Instance key_countable : Countable key.
Proof. apply (inj_countable' key_enc key_dec). by intros []. Defined.

(** The odd part of [p] and the number of factors two removed. *)
Fixpoint odd_part (p : positive) : positive * Z :=
  match p with
  | xO p' => let '(q, k) := odd_part p' in (q, Z.succ k)
  | _ => (p, 0%Z)
  end.

Definition float_key (f : pyfloat) : key :=
  match f with
  | FInf neg => KInf neg
  | FFin _ N0 _ => KInt 0
  | FFin neg (Npos p) e =>
      let '(q, k) := odd_part p in
      let e' := (e + k)%Z in
      if (0 <=? e')%Z
      then KInt (float_trunc neg (Npos q) e')
      else KFrac neg q (Z.to_pos (- e'))
  end.

(** The key a value is looked up under; a list or a dict is unhashable. *)
Definition hash_key (v : pyval) : result key :=
  match v with
  | PNone => Ok KNone
  | PBool b => Ok (KInt (if b then 1 else 0))
  | PInt z => Ok (KInt z)
  | PFloat f => Ok (float_key f)
  | PStr s => Ok (KStr s)
  | PList _ | PDict _ => Raise TypeError
  end.

(** ** Book instances *)

(** The instance dictionary of a [Book]. *)
Abbreviation obj := (gmap string pyval).

(** The fields of the dataclass, in declaration order. *)
Definition book_fields : list string :=
  ["id"; "title"; "author"; "publisher"; "year"; "genre"; "stock"; "owner"].

(** [Book(id=..., ..., owner=...)] *)
Definition Book (id title author publisher year genre stock owner : pyval) : obj :=
  <["id" := id]> (<["title" := title]> (<["author" := author]>
  (<["publisher" := publisher]> (<["year" := year]> (<["genre" := genre]>
  (<["stock" := stock]> (<["owner" := owner]> ∅))))))).

(** The attributes every instance has through its class: the two that
    [object] guards with a setter of its own, the read-only weak-reference
    slot, and the plain class attributes and methods (those of a dataclass
    under Python 3.11). Assigning a plain one stores it in the instance; of
    these only [__dataclass_fields__] is ever read back, by [asdict]. *)
Inductive class_attr : Type :=
| AttrDict
| AttrClass
| AttrWeakref
| AttrPlain.

Definition plain_class_attrs : list string :=
  ["__annotations__"; "__dataclass_fields__"; "__dataclass_params__";
   "__delattr__"; "__dir__"; "__doc__"; "__eq__"; "__format__"; "__ge__";
   "__getattribute__"; "__getstate__"; "__gt__"; "__hash__"; "__init__";
   "__init_subclass__"; "__le__"; "__lt__"; "__match_args__"; "__module__";
   "__ne__"; "__new__"; "__reduce__"; "__reduce_ex__"; "__repr__";
   "__setattr__"; "__sizeof__"; "__str__"; "__subclasshook__"].

Definition class_lookup (name : string) : option class_attr :=
  if decide (name = "__dict__") then Some AttrDict
  else if decide (name = "__class__") then Some AttrClass
  else if decide (name = "__weakref__") then Some AttrWeakref
  else if bool_decide (name ∈ plain_class_attrs) then Some AttrPlain
  else None.

(** [hasattr(book, name)] *)
Definition hasattr (book : obj) (name : string) : bool :=
  bool_decide (is_Some (book !! name)) || bool_decide (is_Some (class_lookup name)).

(** [book.name] for a field: the dataclass gives its fields no class-level
    default, so the read fails on an instance without the attribute. *)
Definition getattr (book : obj) (name : string) : result pyval :=
  match book !! name with
  | Some v => Ok v
  | None => Raise AttributeError
  end.

(** [setattr(book, name, value)] for a JSON [value]. Assigning [__dict__]
    replaces the instance dictionary and needs a dict; [__class__] needs a
    class, which no JSON value is; [__weakref__] is not writable; any other
    name is stored in the instance dictionary. *)
Definition setattr (book : obj) (name : string) (value : pyval) : result obj :=
  match class_lookup name with
  | Some AttrDict =>
      match value with
      | PDict d => Ok (list_to_map d)
      | _ => Raise TypeError
      end
  | Some AttrClass => Raise TypeError
  | Some AttrWeakref => Raise AttributeError
  | _ => Ok (<[name := value]> book)
  end.

(** ** Responses and the store *)

(** What a view hands to [jsonify]: a value, or for the listing the mapping
    from each key of the catalog to the dict of its book. The encoding of
    either is Flask's. *)
Inductive body : Type :=
| Json (v : pyval)
| Listing (m : gmap key pyval).

Record response : Type := Response {
  resp_body : body;
  resp_status : Z;
  resp_headers : list (string * string)
}.

(** [jsonify(v), status] *)
Definition jsonify (v : pyval) (status : Z) : response := Response (Json v) status [].

Definition error_body (msg : string) : pyval := PDict [("error", PStr msg)].
Definition detail_body (msg : string) : pyval := PDict [("detail", PStr msg)].

Definition dquote : string := String (ascii_of_nat 34) EmptyString.

Definition challenge : list (string * string) :=
  [("WWW-Authenticate", "Basic realm=" ++ dquote ++ "Login required" ++ dquote)].

(** The two module-level dicts: [users] maps a username to its password
    hash, a string as [register] records it; [books] maps a key to the
    [Book] stored under it. *)
Record state : Type := State {
  users : gmap string string;
  books : gmap key obj
}.

Definition set_books (st : state) (bs : gmap key obj) : state := State (users st) bs.
Definition set_users (st : state) (us : gmap string string) : state := State us (books st).

(** The catalog the module starts with. *)
Definition initial_books : gmap key obj :=
  <[KStr "BK001" := Book (PStr "BK001") (PStr "Designing Your Life") (PStr "Bill Burnett")
                         (PStr "Knopf") (PInt 2016) (PStr "Self-help") (PInt 5) (PStr "admin")]>
  (<[KStr "BK002" := Book (PStr "BK002") (PStr "Atomic Habits") (PStr "James Clear")
                          (PStr "Avery") (PInt 2018) (PStr "Self-help") (PInt 8) (PStr "admin")]>
  (<[KStr "BK003" := Book (PStr "BK003") (PStr "Mindset: The New Psychology of Success")
                          (PStr "Carol S. Dweck") (PStr "Random House") (PInt 2006)
                          (PStr "Psychology") (PInt 4) (PStr "admin")]> ∅)).

(** What a view leaves behind: its response or the exception that escaped
    it, and the store. *)
Definition outcome : Type := result response * state.

(** ** The handlers *)

(** The library functions the handlers call. *)
Class Library : Type := {
  (** werkzeug's [check_password_hash(pwhash, password)]; it raises on a
      hash it cannot read and on a password it cannot encode *)
  check_password_hash : string -> string -> result bool;
  (** werkzeug's [generate_password_hash(password)], given the salt it
      draws; it raises on a password it cannot encode *)
  generate_password_hash : string -> string -> result string;
  (** Python's [int(s)] for a string [s]; [None] is [ValueError] *)
  int_str : string -> option Z;
  (** whether a list or a dict is nested beyond what the interpreter's
      recursion limit lets [asdict] copy and [jsonify] encode; the limit is
      taken to be the same in every handler *)
  too_deep : pyval -> bool
}.

Section App.

Context {lib : Library}.

(** *** Copies and encodings of values *)

(** Only a list or a dict makes [asdict] and [jsonify] recurse. *)
Definition exceeds_limit (v : pyval) : bool :=
  match v with
  | PList _ | PDict _ => too_deep v
  | _ => false
  end.

(** The copy [asdict] makes of a field value. *)
Definition copy_value (v : pyval) : result pyval :=
  if exceeds_limit v then Raise RecursionError else Ok v.

(** [asdict(book)]: one item per dataclass field, read from the instance and
    copied. [dataclasses.fields] finds the field table through the instance,
    so an instance attribute [__dataclass_fields__] stands in for it: an
    empty dict yields no item, anything else is not a table of fields. *)
Fixpoint read_fields (book : obj) (names : list string) : result dict :=
  match names with
  | [] => Ok []
  | name :: rest =>
      v ← getattr book name;
      c ← copy_value v;
      items ← read_fields book rest;
      Ok ((name, c) :: items)
  end.

Definition asdict (book : obj) : result pyval :=
  match book !! "__dataclass_fields__" with
  | None => items ← read_fields book book_fields; Ok (PDict items)
  | Some (PDict []) => Ok (PDict [])
  | Some _ => Raise AttributeError
  end.

(** [book_to_dict(book)] *)
Definition book_to_dict (book : obj) : result pyval := asdict book.

(** [int(x)] *)
Definition py_int (x : pyval) : result Z :=
  match x with
  | PBool b => Ok (if b then 1 else 0)%Z
  | PInt z => Ok z
  | PFloat (FFin neg m e) => Ok (float_trunc neg m e)
  | PFloat (FInf _) => Raise OverflowError
  | PStr s => match int_str s with Some z => Ok z | None => Raise ValueError end
  | PNone | PList _ | PDict _ => Raise TypeError
  end.

(** *** Authentication helpers *)

Definition validate_password (password : pyval) : result (option string) :=
  n ← py_len password;
  if (n <? 8)%nat then Ok (Some "Password must be at least 8 characters long.")
  else
    cs ← py_iter password;
    has_digit ← py_any method_isdigit cs;
    has_alpha ← py_any method_isalpha cs;
    if negb (has_digit && has_alpha)
    then Ok (Some "Password must contain at least one letter and one number.")
    else Ok None.

Definition auth_required : response :=
  Response (Json (detail_body "Authentication required")) 401 challenge.

Definition invalid_credentials : response :=
  Response (Json (detail_body "Invalid username or password")) 401 challenge.

(** The checks of [require_auth]'s wrapper: the rejection it returns, or
    the username it stores in [g.current_user]. [auth] is
    [request.authorization]; an absent username or password is the empty
    string. *)
Definition authenticate (us : gmap string string) (auth : option (string * string))
  : result (response + string) :=
  match auth with
  | None => Ok (inl auth_required)
  | Some (username, password) =>
      if bool_decide (username = "") || bool_decide (password = "")
      then Ok (inl auth_required)
      else
        match us !! username with
        | None => Ok (inl invalid_credentials)
        | Some password_hash =>
            matches ← check_password_hash password_hash password;
            if negb matches
            then Ok (inl invalid_credentials)
            else Ok (inr username)
        end
  end.

(** The decorator: [func] receives [g.current_user]. *)
Definition require_auth (func : option string -> state -> outcome)
    (auth : option (string * string)) (st : state) : outcome :=
  match authenticate (users st) auth with
  | Raise e => (Raise e, st)
  | Ok (inl rejection) => (Ok rejection, st)
  | Ok (inr username) => func (Some username) st
  end.

(** *** Helpers for books *)

Definition get_book_or_404 (book_id : string) (bs : gmap key obj) : obj + response :=
  match bs !! KStr book_id with
  | None => inr (jsonify (error_body "Book not found") 404)
  | Some book => inl book
  end.

(** [g] is the value of [getattr(g, "current_user", None)]. *)
Definition ensure_owner (g : option string) (book : obj) : result (option response) :=
  match g with
  | None => Ok (Some (jsonify (error_body "Authentication required") 401))
  | Some current_user =>
      if bool_decide (current_user = "")
      then Ok (Some (jsonify (error_body "Authentication required") 401))
      else
        owner ← getattr book "owner";
        if py_ne_str owner current_user
        then Ok (Some (jsonify (error_body "Forbidden: not the owner of this resource") 403))
        else Ok None
  end.

(** *** Registration and [/me] *)

(** werkzeug encodes the password before hashing it: only a [str] has the
    method. *)
Definition hash_password (salt : string) (password : pyval) : result string :=
  match password with
  | PStr s => generate_password_hash salt s
  | _ => Raise AttributeError
  end.

(** The part of [register] before the store is touched: the response of a
    rejected request, or the username and hash to record. *)
Definition register_checks (salt : string) (body : pyval) (us : gmap string string)
  : result (response + string * string) :=
  let data := py_or body (PDict []) in
  u ← method_get data "username";
  username ← method_strip (py_or u (PStr ""));
  p ← method_get data "password";
  let password := py_or p (PStr "") in
  if bool_decide (username = "") || negb (truthy password)
  then Ok (inl (jsonify (error_body "username and password are required") 400))
  else if (String.length username <? 3)%nat
  then Ok (inl (jsonify (error_body "username must be at least 3 characters") 400))
  else if bool_decide (is_Some (us !! username))
  then Ok (inl (jsonify (error_body "username already exists") 400))
  else
    pw_error ← validate_password password;
    match pw_error with
    | Some msg => Ok (inl (jsonify (error_body msg) 400))
    | None =>
        password_hash ← hash_password salt password;
        Ok (inr (username, password_hash))
    end.

Definition register (salt : string) (body : pyval) (st : state) : outcome :=
  match register_checks salt body (users st) with
  | Raise e => (Raise e, st)
  | Ok (inl rejection) => (Ok rejection, st)
  | Ok (inr (username, password_hash)) =>
      (Ok (jsonify (PDict [("message", PStr "User registered successfully")]) 201),
       set_users st (<[username := password_hash]> (users st)))
  end.

Definition me_func (g : option string) (st : state) : outcome :=
  match g with
  | Some current_user => (Ok (jsonify (PDict [("username", PStr current_user)]) 200), st)
  | None => (Raise AttributeError, st)
  end.

Definition me : option (string * string) -> state -> outcome := require_auth me_func.

(** *** Book endpoints *)

Definition dict_of (r : result pyval) : pyval :=
  match r with Ok d => d | Raise _ => PNone end.

(** The exception of the first book on which [book_to_dict] fails. The
    order is the map's own: the store does not record the order in which
    Python iterates over the catalog. *)
Definition first_failure (bs : gmap key obj) : exn :=
  default AttributeError
    (head (omap (fun item => match book_to_dict (snd item) with
                             | Ok _ => None
                             | Raise e => Some e
                             end) (map_to_list bs))).

(** [jsonify] sorts the items of a dict by key, and [<] is defined between
    two strings and between two numbers only. *)
Definition key_class (k : key) : nat :=
  match k with
  | KNone => 0
  | KStr _ => 1
  | KInt _ | KFrac _ _ _ | KInf _ => 2
  end.

Definition sortable_keys (bs : gmap key obj) : Prop :=
  map_Forall (fun k1 _ => map_Forall (fun k2 _ => key_class k1 = key_class k2) bs) bs.

(** The comprehension fails as soon as one [book_to_dict] does; then
    [jsonify] fails if it cannot sort the keys. *)
Definition list_books (st : state) : outcome :=
  if decide (map_Forall (fun _ book => is_ok (book_to_dict book)) (books st))
  then
    if decide (sortable_keys (books st))
    then (Ok (Response (Listing ((fun book => dict_of (book_to_dict book)) <$> books st))
                200 []), st)
    else (Raise TypeError, st)
  else (Raise (first_failure (books st)), st).

Definition get_book (book_id : string) (st : state) : outcome :=
  match get_book_or_404 book_id (books st) with
  | inr error_response => (Ok error_response, st)
  | inl book =>
      match book_to_dict book with
      | Ok d => (Ok (jsonify d 200), st)
      | Raise e => (Raise e, st)
      end
  end.

Definition required_fields : list string :=
  ["title"; "author"; "publisher"; "year"; "genre"; "stock"].

(** [data[k]] *)
Definition dict_item (d : dict) (k : string) : result pyval :=
  match dict_get d k with
  | Some v => Ok v
  | None => Raise KeyError
  end.

(** The part of [create_book] before the store is touched: the response of
    a rejected request, or the key and the new [Book]. *)
Definition create_book_checks (g : option string) (body : pyval) (bs : gmap key obj)
  : result (response + key * obj) :=
  match py_or body (PDict []) with
  | PDict data =>
      let book_id := default PNone (dict_get data "id") in
      if negb (truthy book_id)
      then Ok (inl (jsonify (error_body "Field 'id' is required") 400))
      else
        k ← hash_key book_id;
        if bool_decide (is_Some (bs !! k))
        then Ok (inl (jsonify (error_body "Book with this id already exists") 400))
        else
          let missing := List.filter (fun field => negb (dict_mem data field)) required_fields in
          if negb (bool_decide (missing = []))
          then Ok (inl (jsonify (error_body ("Missing fields: " ++ join ", " missing)) 400))
          else
            match (y ← dict_item data "year"; year ← py_int y;
                   s ← dict_item data "stock"; stock ← py_int s;
                   Ok (year, stock)) with
            | Raise TypeError | Raise ValueError =>
                Ok (inl (jsonify (error_body "year and stock must be integers") 400))
            | Raise e => Raise e
            | Ok (year, stock) =>
                title ← dict_item data "title";
                author ← dict_item data "author";
                publisher ← dict_item data "publisher";
                genre ← dict_item data "genre";
                match g with
                | None => Raise AttributeError
                | Some current_user =>
                    Ok (inr (k, Book book_id title author publisher (PInt year)
                                     genre (PInt stock) (PStr current_user)))
                end
            end
  | _ => Raise AttributeError
  end.

Definition create_book_func (body : pyval) (g : option string) (st : state) : outcome :=
  match create_book_checks g body (books st) with
  | Raise e => (Raise e, st)
  | Ok (inl rejection) => (Ok rejection, st)
  | Ok (inr (k, new_book)) =>
      (d ← book_to_dict new_book;
       Ok (jsonify (PDict [("message", PStr "Book created"); ("book", d)]) 201),
       set_books st (<[k := new_book]> (books st)))
  end.

Definition create_book (auth : option (string * string)) (body : pyval) : state -> outcome :=
  require_auth (create_book_func body) auth.

(** [if k in data: try: data[k] = int(data[k]) except (TypeError,
    ValueError): return ...]: the dict with the field coerced, the
    rejection, or the exception the clause lets through. *)
Inductive coerced : Type :=
| Coerced (data : dict)
| Rejected
| Escaped (e : exn).

Definition coerce_field (data : dict) (k : string) : coerced :=
  match dict_get data k with
  | None => Coerced data
  | Some v =>
      match py_int v with
      | Ok z => Coerced (dict_set data k (PInt z))
      | Raise TypeError | Raise ValueError => Rejected
      | Raise e => Escaped e
      end
  end.

(** [for field, value in data.items(): if hasattr(book, field):
    setattr(book, field, value)]; the book keeps what was assigned before
    an exception. *)
Fixpoint apply_fields (book : obj) (items : dict) : result unit * obj :=
  match items with
  | [] => (Ok tt, book)
  | (field, value) :: rest =>
      if hasattr book field then
        match setattr book field value with
        | Ok book' => apply_fields book' rest
        | Raise e => (Raise e, book)
        end
      else apply_fields book rest
  end.

Definition update_book_func (book_id : string) (body : pyval) (g : option string) (st : state)
  : outcome :=
  match get_book_or_404 book_id (books st) with
  | inr error_response => (Ok error_response, st)
  | inl book =>
      match ensure_owner g book with
      | Raise e => (Raise e, st)
      | Ok (Some forbidden) => (Ok forbidden, st)
      | Ok None =>
          match method_pop (py_or body (PDict [])) "owner" with
          | Raise e => (Raise e, st)
          | Ok data =>
              match coerce_field (dict_pop data "id") "year" with
              | Rejected => (Ok (jsonify (error_body "year must be an integer") 400), st)
              | Escaped e => (Raise e, st)
              | Coerced data =>
                  match coerce_field data "stock" with
                  | Rejected => (Ok (jsonify (error_body "stock must be an integer") 400), st)
                  | Escaped e => (Raise e, st)
                  | Coerced data =>
                      let '(r, book') := apply_fields book data in
                      let st' := set_books st (<[KStr book_id := book']> (books st)) in
                      (_ ← r;
                       d ← book_to_dict book';
                       Ok (jsonify (PDict [("message", PStr "Book updated"); ("book", d)]) 200),
                       st')
                  end
              end
          end
      end
  end.

Definition update_book (auth : option (string * string)) (book_id : string) (body : pyval)
  : state -> outcome :=
  require_auth (update_book_func book_id body) auth.

Definition delete_book_func (book_id : string) (g : option string) (st : state) : outcome :=
  match get_book_or_404 book_id (books st) with
  | inr error_response => (Ok error_response, st)
  | inl book =>
      match ensure_owner g book with
      | Raise e => (Raise e, st)
      | Ok (Some forbidden) => (Ok forbidden, st)
      | Ok None =>
          (Ok (jsonify (PDict [("message", PStr "Book deleted")]) 200),
           set_books st (delete (KStr book_id) (books st)))
      end
  end.

Definition delete_book (auth : option (string * string)) (book_id : string) : state -> outcome :=
  require_auth (delete_book_func book_id) auth.

End App.

(** ** Requests *)

Section Routes.

Context {lib : Library}.

(** A book none of whose field values is nested beyond the limit. *)
Definition shallow_book (b : obj) : Prop :=
  Forall (fun f => forall v, b !! f = Some v -> exceeds_limit v = false) book_fields.

(** The routes of the application. *)
Inductive request : Type :=
| PostRegister (salt : string) (body : pyval)
| GetMe (auth : option (string * string))
| GetBooks
| GetBook (book_id : string)
| PostBooks (auth : option (string * string)) (body : pyval)
| PutBook (auth : option (string * string)) (book_id : string) (body : pyval)
| DeleteBook (auth : option (string * string)) (book_id : string).

Definition handle (r : request) (st : state) : outcome :=
  match r with
  | PostRegister salt body => register salt body st
  | GetMe auth => me auth st
  | GetBooks => list_books st
  | GetBook book_id => get_book book_id st
  | PostBooks auth body => create_book auth body st
  | PutBook auth book_id body => update_book auth book_id body st
  | DeleteBook auth book_id => delete_book auth book_id st
  end.

(** The store after a sequence of requests, each run to its end. *)
Definition run (rs : list request) (st : state) : state :=
  foldl (fun st r => snd (handle r st)) st rs.

(** An update whose body has a [__dict__] key. *)
Definition assigns_dict (r : request) : Prop :=
  match r with
  | PutBook _ _ (PDict d) => is_Some (dict_get d "__dict__")
  | _ => False
  end.

(** Every book is stored under the key of its [id] attribute. *)
Definition keyed_by_id (bs : gmap key obj) : Prop :=
  forall k b, bs !! k = Some b -> exists v, b !! "id" = Some v /\ hash_key v = Ok k.

(** The value the update stores for a field: the integer [int] gives for
    [year] and [stock], the submitted value otherwise. *)
Definition coerced_value (f : string) (v : pyval) : pyval :=
  if bool_decide (f = "year") || bool_decide (f = "stock")
  then match py_int v with Ok z => PInt z | Raise _ => v end
  else v.

(** A value a client that follows the request format may put under
    [username] or [password]: a string, or [null]. *)
Definition str_or_null (v : pyval) : Prop := v = PNone \/ exists s, v = PStr s.

End Routes.

(** ** The users file *)

(** What [os.path.exists], [open] and [json.load] make of [users.json]: there
    is no such file; opening or reading it fails with [OSError]; it is not
    JSON, and [json.load] fails with [JSONDecodeError]; reading or decoding it
    fails with another exception ([UnicodeDecodeError] on text that is not
    UTF-8, [ValueError] on an integer of too many digits, [RecursionError] on
    a value nested too deeply); or it decodes to a value. *)
Inductive users_file : Type :=
| Absent
| Unreadable
| Malformed
| Failing (e : exn)
| Holds (v : pyval).

(** [info["password_hash"]] for an [info] that passes
    [isinstance(info, dict) and "password_hash" in info]. *)
Definition record_hash (info : pyval) : option pyval :=
  match info with
  | PDict d => dict_get d "password_hash"
  | _ => None
  end.

(** The loop of [load_users]. A record [{"password_hash": h}] is kept as
    [h]. *)
Definition clean_users (data : dict) : gmap string pyval :=
  foldl (fun cleaned item =>
           match record_hash (snd item) with
           | Some h => <[fst item := h]> cleaned
           | None => cleaned
           end) ∅ data.

Definition load_users (f : users_file) : result (gmap string pyval) :=
  match f with
  | Absent => Ok ∅
  | Unreadable | Malformed => Ok ∅
  | Failing e => Raise e
  | Holds (PDict data) => Ok (clean_users data)
  | Holds _ => Ok ∅
  end.

(** The value [json.dump(users, f)] writes. *)
Definition users_json (us : gmap string pyval) : pyval :=
  PDict ((fun item => (fst item, PDict [("password_hash", snd item)])) <$> map_to_list us).

(** How the write of [save_users] ends: the text is written; [open] fails
    and the file is as it was; or the write fails after [open] has truncated
    the file, which leaves a strict prefix of the text. *)
Inductive write_result : Type :=
| Written
| Denied
| Interrupted.

(** [save_users(users)]: the file it leaves. The [OSError] of a failed write
    is caught. *)
Definition save_users (us : gmap string pyval) (w : write_result) (f : users_file)
  : users_file :=
  match w with
  | Written => Holds (users_json us)
  | Denied => f
  | Interrupted => Malformed
  end.

Section Startup.

Context {lib : Library}.

(** The module-level statements that set up [users]: the users in memory and
    the file they leave. *)
Definition startup (salt : string) (w : write_result) (f : users_file)
  : result (gmap string pyval * users_file) :=
  us ← load_users f;
  if decide (us = ∅)
  then
    password_hash ← generate_password_hash salt "admin123";
    let us' := <["admin" := PStr password_hash]> us in
    Ok (us', save_users us' w f)
  else Ok (us, f).

(** [register] with the file: [save_users] runs only after the user has been
    recorded. *)
Definition register_saving (salt : string) (body : pyval) (w : write_result)
    (st : state) (f : users_file) : outcome * users_file :=
  match register_checks salt body (users st) with
  | Ok (inr (username, password_hash)) =>
      let st' := set_users st (<[username := password_hash]> (users st)) in
      ((Ok (jsonify (PDict [("message", PStr "User registered successfully")]) 201), st'),
       save_users (PStr <$> users st') w f)
  | Ok (inl rejection) => ((Ok rejection, st), f)
  | Raise e => ((Raise e, st), f)
  end.

End Startup.

(** ** An instance of the library functions *)

(** werkzeug's [plain] method keeps the password next to its tag. *)
Definition plain_generate (salt password : string) : result string :=
  Ok ("plain$$" ++ password).

Definition plain_check (pwhash password : string) : result bool :=
  Ok (bool_decide (pwhash = "plain$$" ++ password)).

(** A bound on the nesting of lists and dicts. *)
Fixpoint nesting (fuel : nat) (v : pyval) : bool :=
  match fuel with
  | O => false
  | S fuel' =>
      match v with
      | PList l => forallb (nesting fuel') l
      | PDict d => forallb (fun item => nesting fuel' (snd item)) d
      | _ => true
      end
  end.

Definition plain_too_deep (v : pyval) : bool := negb (nesting 100 v).

(** [int(s)] in base ten: blanks around an optional sign and digits, where
    single underscores may separate digits. The interpreter's bound on the
    number of digits is left out. *)
Definition int_space (c : ascii) : bool :=
  between 9 13 c || between 32 32 c || between 133 133 c || between 160 160 c.

Definition digit_value (c : ascii) : option Z :=
  if between 48 57 c then Some (Z.of_N (code c) - 48)%Z else None.

Fixpoint lstrip_int (s : string) : string :=
  match s with
  | EmptyString => EmptyString
  | String c s' => if int_space c then lstrip_int s' else s
  end.

Fixpoint digits_from (acc : Z) (s : string) : option Z :=
  match s with
  | EmptyString => Some acc
  | String c s' =>
      match digit_value c with
      | Some d => digits_from (10 * acc + d) s'
      | None =>
          if between 95 95 c then
            match s' with
            | EmptyString => None
            | String c' s'' =>
                match digit_value c' with
                | Some d => digits_from (10 * acc + d) s''
                | None => None
                end
            end
          else if forallb int_space (chars s) then Some acc else None
      end
  end.

Definition unsigned_int (s : string) : option Z :=
  match s with
  | EmptyString => None
  | String c s' =>
      match digit_value c with
      | Some d => digits_from d s'
      | None => None
      end
  end.

Definition decimal_int (s : string) : option Z :=
  match lstrip_int s with
  | EmptyString => None
  | String c s' =>
      if between 45 45 c then Z.opp <$> unsigned_int s'
      else if between 43 43 c then unsigned_int s'
      else unsigned_int (String c s')
  end.

#[global] Instance plain_library : Library := {
  check_password_hash := plain_check;
  generate_password_hash := plain_generate;
  int_str := decimal_int;
  too_deep := plain_too_deep
}.

(** ** Intact instances *)

(** A [Book] as the constructor leaves it: every field of the dataclass is an
    instance attribute and the class's field table is not shadowed. *)
Definition is_book (b : obj) : Prop :=
  Forall (fun f => is_Some (b !! f)) book_fields /\ b !! "__dataclass_fields__" = None.

(** The fields of a book with their values, in declaration order. *)
Definition content (b : obj) : pyval :=
  PDict (map (fun f => (f, default PNone (b !! f))) book_fields).

Definition forbidden : response :=
  jsonify (error_body "Forbidden: not the owner of this resource") 403.

Definition not_found : response := jsonify (error_body "Book not found") 404.

(** A string that does not begin with a blank. *)
Definition starts_clean (s : string) : Prop :=
  match s with
  | EmptyString => True
  | String c _ => isspace c = false
  end.

(** An update body whose only key is [__dict__], carrying a full set of
    fields with another id and another owner. *)
Definition instance_dict_payload : pyval :=
  PDict [("__dict__",
          PDict [("id", PStr "BK002"); ("title", PStr "Designing Your Life");
                 ("author", PStr "Bill Burnett"); ("publisher", PStr "Knopf");
                 ("year", PInt 2016); ("genre", PStr "Self-help");
                 ("stock", PInt 5); ("owner", PStr "mallory")])].

(** An update body that assigns a [__dict__] holding the owner alone. *)
Definition owner_only_payload : pyval :=
  PDict [("__dict__", PDict [("owner", PStr "admin")])].

(** A create body whose id is the number 5. *)
Definition integer_id_payload : pyval :=
  PDict [("id", PInt 5); ("title", PStr "X"); ("author", PStr "Y"); ("publisher", PStr "Z");
         ("year", PInt 2020); ("genre", PStr "G"); ("stock", PInt 3)].

(** A store with two users, over the catalog the module starts with. *)
Definition demo_state : state :=
  State (<["admin" := "plain$$admin123"]> (<["carol" := "plain$$Passw0rd"]> ∅))
        initial_books.

(** A create body with a fresh id, a [year] given as a string, a [stock]
    given as the float 3.5, and an owner of its own. *)
Definition bk999_payload : dict :=
  [("id", PStr "BK999"); ("title", PStr "X"); ("author", PStr "Y"); ("publisher", PStr "Z");
   ("year", PStr "2020"); ("genre", PStr "G"); ("stock", PFloat (FFin false 7 (-1)));
   ("owner", PStr "mallory")].

(** A create body whose [year] is not a number. *)
Definition bad_year_payload : dict :=
  [("id", PStr "BK010"); ("title", PStr "T"); ("author", PStr "A"); ("publisher", PStr "P");
   ("year", PStr "MMXX"); ("genre", PStr "G"); ("stock", PInt 1)].

(** The first book of the initial catalog. *)
Definition bk001 : obj :=
  Book (PStr "BK001") (PStr "Designing Your Life") (PStr "Bill Burnett") (PStr "Knopf")
       (PInt 2016) (PStr "Self-help") (PInt 5) (PStr "admin").

(** An update body with a [stock] given as a string, an [owner] and a key
    that is no attribute. *)
Definition stock_payload : dict :=
  [("stock", PStr "10"); ("owner", PStr "carol"); ("colour", PStr "red")].

(** A creation by one user and a deletion by another. *)
Definition two_requests : list request :=
  [PostBooks (Some ("carol", "Passw0rd")) (PDict bk999_payload);
   DeleteBook (Some ("admin", "admin123")) "BK002"].

(** The items of a users file with one well-formed record and two that are
    not. *)
Definition users_file_data : dict :=
  [("alice", PDict [("password_hash", PStr "h1"); ("note", PStr "x")]);
   ("bob", PInt 3);
   ("carol", PDict [("hash", PStr "h3")])].

(** ** Properties *)

Lemma bind_Ok {A B} (f : A -> result B) (a : A) : (Ok a ≫= f) = f a.
Proof. reflexivity. Qed.

Lemma bind_Raise {A B} (f : A -> result B) (e : exn) : (Raise e ≫= f) = Raise e.
Proof. reflexivity. Qed.

(** *** The password policy *)

Lemma single_isdigit (c : ascii) : str_isdigit (String c EmptyString) = isdigit c.
Proof. unfold str_isdigit. cbn. apply andb_true_r. Qed.

Lemma single_isalpha (c : ascii) : str_isalpha (String c EmptyString) = isalpha c.
Proof. unfold str_isalpha. cbn. apply andb_true_r. Qed.

Lemma any_isdigit_chars (cs : list ascii) :
  py_any method_isdigit (map (fun c => PStr (String c EmptyString)) cs)
  = Ok (existsb isdigit cs).
Proof.
  induction cs as [|c cs IH]; [reflexivity|].
  cbn [map py_any method_isdigit existsb]. rewrite bind_Ok, single_isdigit.
  destruct (isdigit c); [reflexivity | exact IH].
Qed.

Lemma any_isalpha_chars (cs : list ascii) :
  py_any method_isalpha (map (fun c => PStr (String c EmptyString)) cs)
  = Ok (existsb isalpha cs).
Proof.
  induction cs as [|c cs IH]; [reflexivity|].
  cbn [map py_any method_isalpha existsb]. rewrite bind_Ok, single_isalpha.
  destruct (isalpha c); [reflexivity | exact IH].
Qed.

(** On a string the policy is a total function of the string alone. *)
Lemma validate_password_str (p : string) :
  validate_password (PStr p) =
  Ok (if (String.length p <? 8)%nat
      then Some "Password must be at least 8 characters long."
      else if negb (existsb isdigit (chars p) && existsb isalpha (chars p))
      then Some "Password must contain at least one letter and one number."
      else None).
Proof.
  unfold validate_password. cbn [py_len py_iter]. rewrite bind_Ok.
  destruct (String.length p <? 8)%nat; [reflexivity|].
  rewrite bind_Ok, any_isdigit_chars, bind_Ok, any_isalpha_chars, bind_Ok.
  by destruct (negb _).
Qed.

Lemma existsb_elem_of {A} (f : A -> bool) (l : list A) :
  existsb f l = true <-> exists x, x ∈ l /\ f x = true.
Proof.
  rewrite existsb_exists. split; intros (x & Hx & Hf); exists x; split; auto;
    by apply list_elem_of_In.
Qed.

(** C7: [validate_password] is a function of the password alone; it returns
    an error reason exactly when the password is shorter than 8 characters,
    or has no alphabetic character, or has no digit, and [None] otherwise.
    ["short1"] and ["alllettersnodigit"] are rejected, ["alllower1"] and
    ["GOOD1234"] are accepted. *)
Theorem validate_password_policy :
  (forall p : string, exists r : option string,
      validate_password (PStr p) = Ok r /\
      (is_Some r <->
         (String.length p < 8)%nat
         \/ ~ (exists c, c ∈ chars p /\ isalpha c = true)
         \/ ~ (exists c, c ∈ chars p /\ isdigit c = true)))
  /\ (exists msg, validate_password (PStr "short1") = Ok (Some msg))
  /\ (exists msg, validate_password (PStr "alllettersnodigit") = Ok (Some msg))
  /\ validate_password (PStr "alllower1") = Ok None
  /\ validate_password (PStr "GOOD1234") = Ok None.
Proof.
  split; [|repeat split; try (eexists; reflexivity); reflexivity].
  intros p. eexists. split; [apply validate_password_str|].
  destruct (Nat.ltb_spec (String.length p) 8) as [Hlen|Hlen].
  { split; [intros _; by left | intros _; by eexists]. }
  destruct (existsb isdigit (chars p)) eqn:Hd; destruct (existsb isalpha (chars p)) eqn:Ha;
    cbn [andb negb].
  - split; [by intros [? [=]]|].
    apply existsb_elem_of in Hd, Ha. intros [H|[H|H]]; [lia | by destruct H ..].
  - split; [|by eexists]. intros _. right; left. rewrite <- existsb_elem_of. congruence.
  - split; [|by eexists]. intros _. right; right. rewrite <- existsb_elem_of. congruence.
  - split; [|by eexists]. intros _. right; left. rewrite <- existsb_elem_of. congruence.
Qed.

Section AppProperties.

Context {lib : Library}.

(** *** The authenticator *)

Lemma authenticate_rejection us auth r :
  authenticate us auth = Ok (inl r) -> resp_status r = 401%Z.
Proof.
  unfold authenticate. intros H.
  destruct auth as [[username password]|]; [|by inversion H].
  destruct (_ || _); [by inversion H|].
  destruct (us !! username) as [h|]; [|by inversion H].
  destruct (check_password_hash h password) as [[]|e]; by inversion H.
Qed.

Lemma authenticate_nonempty us auth u :
  authenticate us auth = Ok (inr u) -> u <> "".
Proof.
  unfold authenticate. intros H.
  destruct auth as [[username password]|]; [|by inversion H].
  destruct (bool_decide (username = "")) eqn:Hu; [by inversion H|].
  apply bool_decide_eq_false in Hu. cbn [orb] in H.
  destruct (bool_decide (password = "")); [by inversion H|].
  destruct (us !! username) as [h|]; [|by inversion H].
  destruct (check_password_hash h password) as [[]|e]; inversion H; by subst.
Qed.

(** C2: a request with an unknown username and a request with a known
    username and a password that does not match its hash get the same
    response from the authenticator, status, message and header alike,
    and neither reaches the handler nor changes the store. *)
Theorem unknown_user_same_as_wrong_password
    (func : option string -> state -> outcome) (st : state)
    (unknown known pwhash password password' : string) :
  unknown <> "" -> password' <> "" -> known <> "" -> password <> "" ->
  users st !! unknown = None ->
  users st !! known = Some pwhash ->
  check_password_hash pwhash password = Ok false ->
  require_auth func (Some (unknown, password')) st
  = require_auth func (Some (known, password)) st
  /\ require_auth func (Some (known, password)) st = (Ok invalid_credentials, st).
Proof.
  intros Hu Hp' Hk Hp Hnone Hsome Hcheck.
  unfold require_auth, authenticate.
  rewrite !bool_decide_eq_false_2 by done. cbn [orb].
  by rewrite Hnone, Hsome, Hcheck.
Qed.

(** *** The ownership guard *)

Lemma py_ne_str_true (v : pyval) (u : string) : v <> PStr u -> py_ne_str v u = true.
Proof.
  intros Hne. destruct v; try reflexivity. cbn.
  rewrite bool_decide_eq_false_2; [done | congruence].
Qed.

Lemma ensure_owner_other (u : string) (b : obj) (owner : pyval) :
  u <> "" -> b !! "owner" = Some owner -> owner <> PStr u ->
  ensure_owner (Some u) b = Ok (Some forbidden).
Proof.
  intros Hu Hb Hne. unfold ensure_owner, getattr.
  rewrite bool_decide_eq_false_2 by done. rewrite Hb, bind_Ok.
  by rewrite py_ne_str_true.
Qed.

Lemma ensure_owner_status g b r :
  ensure_owner g b = Ok (Some r) -> resp_status r = 401%Z \/ resp_status r = 403%Z.
Proof.
  unfold ensure_owner, getattr. destruct g as [u|]; [|intros [= <-]; by left].
  destruct (bool_decide _); [intros [= <-]; by left|].
  destruct (b !! "owner") as [o|]; [|done]. rewrite bind_Ok.
  destruct (py_ne_str o u); [intros [= <-]; by right | done].
Qed.

Lemma read_fields_is_book (b : obj) (names : list string) :
  Forall (fun f => is_Some (b !! f)) names ->
  Forall (fun f => forall v, b !! f = Some v -> exceeds_limit v = false) names ->
  read_fields b names = Ok (map (fun f => (f, default PNone (b !! f))) names).
Proof.
  induction 1 as [|f names [v Hv] _ IH]; [reflexivity|].
  intros Hsh. apply Forall_cons in Hsh as [Hv' Hsh].
  cbn [read_fields map]. unfold getattr, copy_value.
  rewrite Hv, bind_Ok, (Hv' v Hv), bind_Ok, (IH Hsh), bind_Ok. reflexivity.
Qed.

Lemma asdict_is_book (b : obj) : is_book b -> shallow_book b -> asdict b = Ok (content b).
Proof.
  intros [Hf Hs] Hsh. unfold asdict. rewrite Hs, (read_fields_is_book _ _ Hf Hsh). reflexivity.
Qed.

(** A caller authenticated as [u] who is not the owner of a book gets
    [Forbidden] from update and from delete, whatever the body, and the
    store is left as it was. *)
Lemma non_owner_forbidden_func (st : state) (u book_id : string) (b : obj) (owner body : pyval) :
  u <> "" ->
  books st !! KStr book_id = Some b ->
  b !! "owner" = Some owner ->
  owner <> PStr u ->
  update_book_func book_id body (Some u) st = (Ok forbidden, st)
  /\ delete_book_func book_id (Some u) st = (Ok forbidden, st).
Proof.
  intros Hu Hb Howner Hne. unfold update_book_func, delete_book_func, get_book_or_404.
  by rewrite Hb, (ensure_owner_other _ _ _ Hu Howner Hne).
Qed.

(** C1, on two catalogs that requests reach from the initial one. After the
    owner's update with a [__dict__] that holds the owner alone, the book is
    still in the catalog with its owner, and another user is still refused,
    but the single read and the listing end in [AttributeError]. After a
    creation with the id 5, the listing ends in the [TypeError] of sorting an
    integer key among string keys. *)
Theorem read_and_list_escape (us : gmap string string) :
  let st1 := snd (update_book_func "BK001" owner_only_payload (Some "admin")
                    (State us initial_books)) in
  let st2 := snd (create_book_func integer_id_payload (Some "carol")
                    (State us initial_books)) in
  (exists b, books st1 !! KStr "BK001" = Some b /\ b !! "owner" = Some (PStr "admin"))
  /\ update_book_func "BK001" (PDict []) (Some "carol") st1 = (Ok forbidden, st1)
  /\ get_book "BK001" st1 = (Raise AttributeError, st1)
  /\ list_books st1 = (Raise AttributeError, st1)
  /\ fst (create_book_func integer_id_payload (Some "carol") (State us initial_books))
     = Ok (jsonify (PDict [("message", PStr "Book created");
                           ("book", PDict [("id", PInt 5); ("title", PStr "X");
                                           ("author", PStr "Y"); ("publisher", PStr "Z");
                                           ("year", PInt 2020); ("genre", PStr "G");
                                           ("stock", PInt 3); ("owner", PStr "carol")])])
             201)
  /\ list_books st2 = (Raise TypeError, st2).
Proof.
  cbv zeta. split; [eexists; split; vm_compute; reflexivity|].
  repeat split; vm_compute; reflexivity.
Qed.

(** *** Deletion *)

(** C8: once a delete of an id has succeeded, a read of that id is
    answered [NotFound], and so is a second delete with the same
    credentials. *)
Theorem delete_then_not_found
    (st st' : state) (auth : option (string * string)) (book_id : string) (resp : response) :
  delete_book auth book_id st = (Ok resp, st') ->
  resp_status resp = 200%Z ->
  get_book book_id st' = (Ok not_found, st')
  /\ delete_book auth book_id st' = (Ok not_found, st').
Proof.
  unfold delete_book, require_auth.
  destruct (authenticate (users st) auth) as [[r|u]|e] eqn:Hauth; [| |by intros [=]].
  { intros [= <- <-] Hs. by rewrite (authenticate_rejection _ _ _ Hauth) in Hs. }
  unfold delete_book_func at 1, get_book_or_404.
  destruct (books st !! KStr book_id) as [b|]; [|by intros [= <- <-]].
  destruct (ensure_owner (Some u) b) as [[r|]|e] eqn:Hown.
  - intros [= <- <-] Hs. destruct (ensure_owner_status _ _ _ Hown) as [H|H];
      rewrite H in Hs; discriminate.
  - intros [= <- <-] _. cbn [users set_books]. rewrite Hauth.
    unfold get_book, delete_book_func, get_book_or_404. cbn [books set_books].
    by rewrite lookup_delete_eq.
  - intros [=].
Qed.

(** *** Creation *)

Lemma asdict_Book (id title author publisher year genre stock owner : pyval) :
  exceeds_limit id = false -> exceeds_limit title = false ->
  exceeds_limit author = false -> exceeds_limit publisher = false ->
  exceeds_limit year = false -> exceeds_limit genre = false ->
  exceeds_limit stock = false -> exceeds_limit owner = false ->
  asdict (Book id title author publisher year genre stock owner)
  = Ok (PDict [("id", id); ("title", title); ("author", author);
               ("publisher", publisher); ("year", year); ("genre", genre);
               ("stock", stock); ("owner", owner)]).
Proof.
  intros H1 H2 H3 H4 H5 H6 H7 H8. unfold asdict, Book.
  rewrite !lookup_insert_ne, lookup_empty by done.
  cbn [read_fields book_fields]. unfold getattr, copy_value.
  repeat (rewrite ?lookup_insert_eq, ?bind_Ok; rewrite ?lookup_insert_ne by done).
  rewrite H1, bind_Ok, H2, bind_Ok, H3, bind_Ok, H4, bind_Ok, H5, bind_Ok, H6, bind_Ok,
    H7, bind_Ok, H8, bind_Ok.
  reflexivity.
Qed.

Lemma hash_key_atom (v : pyval) (k : key) : hash_key v = Ok k -> exceeds_limit v = false.
Proof. by destruct v. Qed.

Lemma dict_mem_Some (d : dict) (k : string) (v : pyval) :
  dict_get d k = Some v -> dict_mem d k = true.
Proof. intros Hk. unfold dict_mem. rewrite Hk. by apply bool_decide_eq_true_2. Qed.

Lemma dict_item_Some (d : dict) (k : string) (v : pyval) :
  dict_get d k = Some v -> dict_item d k = Ok v.
Proof. intros Hk. unfold dict_item. by rewrite Hk. Qed.

Lemma py_or_dict (d : dict) (k : string) (v : pyval) (alt : pyval) :
  dict_get d k = Some v -> py_or (PDict d) alt = PDict d.
Proof. intros Hk. by destruct d. Qed.

(** C6: for a caller authenticated as [u] and a payload with a non-empty
    string id that is not in the catalog, every required field, none nested
    beyond the recursion limit, and [year] and [stock] that [int] accepts,
    creation succeeds, and a read of that id then returns the submitted
    fields, [year] and [stock] as the integers [int] gave, with owner [u]
    whatever the payload says. *)
Theorem create_then_read
    (st : state) (auth : option (string * string)) (u s : string) (data : dict)
    (title author publisher genre year stock : pyval) (y k : Z) :
  authenticate (users st) auth = Ok (inr u) ->
  dict_get data "id" = Some (PStr s) -> s <> "" ->
  books st !! KStr s = None ->
  dict_get data "title" = Some title -> exceeds_limit title = false ->
  dict_get data "author" = Some author -> exceeds_limit author = false ->
  dict_get data "publisher" = Some publisher -> exceeds_limit publisher = false ->
  dict_get data "genre" = Some genre -> exceeds_limit genre = false ->
  dict_get data "year" = Some year -> py_int year = Ok y ->
  dict_get data "stock" = Some stock -> py_int stock = Ok k ->
  exists resp st',
    create_book auth (PDict data) st = (Ok resp, st')
    /\ resp_status resp = 201%Z
    /\ get_book s st'
       = (Ok (jsonify (PDict [("id", PStr s); ("title", title); ("author", author);
                              ("publisher", publisher); ("year", PInt y);
                              ("genre", genre); ("stock", PInt k);
                              ("owner", PStr u)]) 200), st').
Proof.
  intros Hauth Hid Hs Hfresh Ht Ht' Ha Ha' Hp Hp' Hg Hg' Hy Hyi Hk Hki.
  assert (Hdict : asdict (Book (PStr s) title author publisher (PInt y) genre (PInt k)
                            (PStr u))
                  = Ok (PDict [("id", PStr s); ("title", title); ("author", author);
                               ("publisher", publisher); ("year", PInt y);
                               ("genre", genre); ("stock", PInt k); ("owner", PStr u)]))
    by (by apply asdict_Book).
  unfold create_book, require_auth. rewrite Hauth.
  unfold create_book_func, create_book_checks.
  rewrite (py_or_dict _ _ _ _ Hid), Hid. cbn [default from_option id truthy hash_key].
  rewrite bool_decide_eq_false_2 by done. cbn [negb]. rewrite bind_Ok, Hfresh.
  rewrite bool_decide_eq_false_2 by (by intros [? [=]]).
  cbn [required_fields List.filter].
  rewrite (dict_mem_Some _ _ _ Ht), (dict_mem_Some _ _ _ Ha), (dict_mem_Some _ _ _ Hp),
    (dict_mem_Some _ _ _ Hg), (dict_mem_Some _ _ _ Hy), (dict_mem_Some _ _ _ Hk).
  cbn [negb]. rewrite bool_decide_eq_true_2 by done. cbn [negb].
  rewrite (dict_item_Some _ _ _ Hy), bind_Ok, Hyi, bind_Ok,
    (dict_item_Some _ _ _ Hk), bind_Ok, Hki, bind_Ok.
  rewrite (dict_item_Some _ _ _ Ht), bind_Ok, (dict_item_Some _ _ _ Ha), bind_Ok,
    (dict_item_Some _ _ _ Hp), bind_Ok, (dict_item_Some _ _ _ Hg), bind_Ok.
  unfold book_to_dict. rewrite Hdict, bind_Ok.
  eexists _, _. split; [reflexivity|]. split; [reflexivity|].
  unfold get_book, get_book_or_404, book_to_dict. cbn [books set_books].
  by rewrite lookup_insert_eq, Hdict.
Qed.

(** *** Registration *)

Lemma lstrip_starts_clean (s : string) : starts_clean (lstrip s).
Proof.
  induction s as [|c s IH]; [exact I|].
  cbn [lstrip]. destruct (isspace c) eqn:Hc; [exact IH | exact Hc].
Qed.

Lemma lstrip_clean (s : string) : starts_clean s -> lstrip s = s.
Proof. destruct s as [|c s]; [done|]. cbn. by intros ->. Qed.

Lemma rstrip_starts_clean (s : string) : starts_clean s -> starts_clean (rstrip s).
Proof.
  destruct s as [|c s]; [done|]. cbn [starts_clean rstrip]. intros Hc.
  destruct (rstrip s); [by rewrite Hc | done].
Qed.

Lemma rstrip_idemp (s : string) : rstrip (rstrip s) = rstrip s.
Proof.
  induction s as [|c s IH]; [reflexivity|].
  cbn [rstrip]. destruct (rstrip s) as [|c' r] eqn:Hr.
  - destruct (isspace c) eqn:Hc; [reflexivity|]. cbn [rstrip]. by rewrite Hc.
  - change (rstrip (String c (String c' r))) with
      (match rstrip (String c' r) with
       | EmptyString => if isspace c then EmptyString else String c EmptyString
       | r' => String c r'
       end).
    by rewrite IH.
Qed.

Lemma strip_idemp (s : string) : strip (strip s) = strip s.
Proof.
  unfold strip.
  rewrite (lstrip_clean (rstrip (lstrip s)))
    by apply rstrip_starts_clean, lstrip_starts_clean.
  apply rstrip_idemp.
Qed.

Lemma dict_get_set_eq (d : dict) (k : string) (v : pyval) :
  dict_get (dict_set d k v) k = Some v.
Proof.
  induction d as [|[k' v'] d IH]; cbn [dict_set dict_get].
  - by rewrite decide_True.
  - destruct (decide (k' = k)) as [->|Hne]; cbn [dict_get].
    + by rewrite decide_True.
    + by rewrite decide_False.
Qed.

Lemma dict_get_set_ne (d : dict) (k k' : string) (v : pyval) :
  k <> k' -> dict_get (dict_set d k v) k' = dict_get d k'.
Proof.
  intros Hne. induction d as [|[k0 v0] d IH]; cbn [dict_set dict_get].
  - by rewrite decide_False.
  - destruct (decide (k0 = k)) as [->|Hne0]; cbn [dict_get].
    + by rewrite !decide_False.
    + by rewrite IH.
Qed.

(** What [register] does once the submitted username is a string [u]: every
    test reads [strip u]. *)
Lemma register_checks_username (salt : string) (d : dict) (u : string)
    (us : gmap string string) :
  dict_get d "username" = Some (PStr u) ->
  register_checks salt (PDict d) us =
  let password := py_or (default PNone (dict_get d "password")) (PStr "") in
  if bool_decide (strip u = "") || negb (truthy password)
  then Ok (inl (jsonify (error_body "username and password are required") 400))
  else if (String.length (strip u) <? 3)%nat
  then Ok (inl (jsonify (error_body "username must be at least 3 characters") 400))
  else if bool_decide (is_Some (us !! strip u))
  then Ok (inl (jsonify (error_body "username already exists") 400))
  else
    pw_error ← validate_password password;
    match pw_error with
    | Some msg => Ok (inl (jsonify (error_body msg) 400))
    | None =>
        password_hash ← hash_password salt password;
        Ok (inr (strip u, password_hash))
    end.
Proof.
  intros Hu. unfold register_checks.
  rewrite (py_or_dict _ _ _ _ Hu). cbn [method_get]. rewrite bind_Ok, Hu.
  cbn [default from_option id].
  assert (method_strip (py_or (PStr u) (PStr "")) = Ok (strip u)) as ->.
  { unfold py_or. cbn [truthy]. by destruct u. }
  by rewrite !bind_Ok.
Qed.

(** C10: [register] strips the submitted username before every test and
    before it records the user: the request is answered, and the store
    left, as for the stripped name; a name of blanks only is rejected as
    missing; on success the user is recorded under the stripped name with
    the hash of the password exactly as submitted. *)
Theorem register_strips_username
    (salt : string) (d : dict) (u : string) (st : state) :
  dict_get d "username" = Some (PStr u) ->
  register salt (PDict d) st
  = register salt (PDict (dict_set d "username" (PStr (strip u)))) st
  /\ (strip u = "" ->
      register salt (PDict d) st
      = (Ok (jsonify (error_body "username and password are required") 400), st))
  /\ (forall resp st',
        register salt (PDict d) st = (Ok resp, st') ->
        resp_status resp = 201%Z ->
        users st !! strip u = None
        /\ exists password password_hash,
             dict_get d "password" = Some (PStr password)
             /\ generate_password_hash salt password = Ok password_hash
             /\ st' = set_users st (<[strip u := password_hash]> (users st))).
Proof.
  intros Hu. unfold register.
  rewrite (register_checks_username _ _ _ _ Hu).
  split; [|split].
  - rewrite (register_checks_username salt _ (strip u)) by apply dict_get_set_eq.
    by rewrite strip_idemp, dict_get_set_ne.
  - intros ->. reflexivity.
  - intros resp st'. cbv zeta.
    destruct (bool_decide (strip u = "") || _) eqn:Hreq; [by intros [= <- <-]|].
    destruct (String.length (strip u) <? 3)%nat; [by intros [= <- <-]|].
    destruct (bool_decide (is_Some (users st !! strip u))) eqn:Hin; [by intros [= <- <-]|].
    apply bool_decide_eq_false in Hin. rewrite <- eq_None_not_Some in Hin.
    apply orb_false_elim in Hreq as [_ Htruthy]. apply negb_false_iff in Htruthy.
    destruct (validate_password _) as [[msg|]|e]; rewrite ?bind_Ok, ?bind_Raise;
      [by intros [= <- <-] | | by intros [=]].
    revert Htruthy. unfold py_or.
    destruct (dict_get d "password") as [p|] eqn:Hp; cbn [default from_option id];
      [|by cbn].
    destruct (truthy p) eqn:Hp'; [|by cbn].
    intros _. destruct p; cbn [hash_password]; rewrite ?bind_Raise; try by intros [=].
    destruct (generate_password_hash salt s) as [h|e] eqn:Hh; rewrite ?bind_Ok, ?bind_Raise;
      [|by intros [=]].
    intros [= <- <-] _. eauto 10.
Qed.

(** *** Updates *)

Lemma py_or_body (d : dict) : py_or (PDict d) (PDict []) = PDict d.
Proof. by destruct d. Qed.

Lemma dict_get_pop_eq (d : dict) (k : string) : dict_get (dict_pop d k) k = None.
Proof.
  induction d as [|[k' v'] d IH]; [reflexivity|]. cbn [dict_pop].
  destruct (decide (k' = k)); [exact IH|]. cbn [dict_get]. by rewrite decide_False.
Qed.

Lemma dict_get_pop_ne (d : dict) (k k' : string) :
  k <> k' -> dict_get (dict_pop d k) k' = dict_get d k'.
Proof.
  intros Hne. induction d as [|[k0 v0] d IH]; [reflexivity|]. cbn [dict_pop dict_get].
  destruct (decide (k0 = k)) as [->|Hne0].
  - by rewrite decide_False.
  - cbn [dict_get]. by rewrite IH.
Qed.

Lemma py_int_raises (v : pyval) (e : exn) :
  py_int v = Raise e -> e = TypeError \/ e = ValueError \/ e = OverflowError.
Proof.
  destruct v as [| | |[]| | |]; cbn; try (intros [= <-]; auto); try done.
  destruct (int_str s); [done | intros [= <-]; auto].
Qed.

(** The outcome of one [coerce_field], by what [int] does on the field. *)
Lemma coerce_field_spec (data : dict) (k : string) :
  match coerce_field data k with
  | Coerced data' =>
      (dict_get data k = None /\ data' = data)
      \/ exists v z, dict_get data k = Some v /\ py_int v = Ok z
                     /\ data' = dict_set data k (PInt z)
  | Rejected =>
      exists v, dict_get data k = Some v
                /\ (py_int v = Raise TypeError \/ py_int v = Raise ValueError)
  | Escaped e =>
      exists v, dict_get data k = Some v /\ py_int v = Raise e /\ e = OverflowError
  end.
Proof.
  unfold coerce_field. destruct (dict_get data k) as [v|]; [|by left].
  destruct (py_int v) as [z|e] eqn:Hv; [right; eauto|].
  destruct (py_int_raises _ _ Hv) as [->|[->| ->]]; eauto.
Qed.

(** Validation comes first: when [year] or [stock] is present and [int]
    does not accept it, the update leaves the store as it was, whatever
    else the body carries. *)
Lemma update_uncoercible_keeps_store
    (st : state) (book_id : string) (g : option string) (d : dict) (f : string) (v : pyval) :
  f = "year" \/ f = "stock" ->
  dict_get d f = Some v -> is_ok (py_int v) = false ->
  snd (update_book_func book_id (PDict d) g st) = st.
Proof.
  intros Hf Hv Hbad. unfold update_book_func.
  destruct (get_book_or_404 _ _) as [b|]; [|done].
  destruct (ensure_owner g b) as [[r|]|e]; [done| |done].
  rewrite py_or_body. cbn [method_pop].
  set (data := dict_pop (dict_pop d "owner") "id").
  assert (Hdata : forall k, k = "year" \/ k = "stock" -> dict_get data k = dict_get d k).
  { intros k [->| ->]; unfold data; by rewrite !dict_get_pop_ne. }
  pose proof (coerce_field_spec data "year") as Hy.
  destruct (coerce_field data "year") as [data1| |e]; [|done..].
  pose proof (coerce_field_spec data1 "stock") as Hs.
  destruct (coerce_field data1 "stock") as [data2| |e]; [|done..].
  exfalso.
  assert (Hstock : dict_get data1 "stock" = dict_get d "stock").
  { destruct Hy as [[_ ->]|(? & ? & _ & _ & ->)]; [|rewrite dict_get_set_ne by done];
      apply Hdata; auto. }
  destruct Hf as [-> | ->].
  - rewrite Hdata, Hv in Hy by auto.
    destruct Hy as [[[=] _]|(? & ? & [= <-] & Hok & _)]. by rewrite Hok in Hbad.
  - rewrite Hstock, Hv in Hs.
    destruct Hs as [[[=] _]|(? & ? & [= <-] & Hok & _)]. by rewrite Hok in Hbad.
Qed.

(** For the owner of an existing book, a [year] or [stock] on which [int]
    fails with [TypeError] or [ValueError] is answered with a validation
    error, provided neither field is an infinite float. *)
Lemma update_uncoercible_rejected
    (st : state) (book_id : string) (g : option string) (b : obj) (d : dict)
    (f : string) (v : pyval) :
  books st !! KStr book_id = Some b -> ensure_owner g b = Ok None ->
  (forall k w, k = "year" \/ k = "stock" -> dict_get d k = Some w ->
               py_int w <> Raise OverflowError) ->
  f = "year" \/ f = "stock" ->
  dict_get d f = Some v -> is_ok (py_int v) = false ->
  exists msg,
    update_book_func book_id (PDict d) g st = (Ok (jsonify (error_body msg) 400), st).
Proof.
  intros Hb Hown Hfin Hf Hv Hbad.
  pose proof (update_uncoercible_keeps_store st book_id g d f v Hf Hv Hbad) as Hst.
  revert Hst. unfold update_book_func, get_book_or_404. rewrite Hb, Hown, py_or_body.
  cbn [method_pop]. set (data := dict_pop (dict_pop d "owner") "id").
  assert (Hdata : forall k, k = "year" \/ k = "stock" -> dict_get data k = dict_get d k).
  { intros k [->| ->]; unfold data; by rewrite !dict_get_pop_ne. }
  pose proof (coerce_field_spec data "year") as Hy.
  destruct (coerce_field data "year") as [data1| |e]; [|eauto|].
  - pose proof (coerce_field_spec data1 "stock") as Hs.
    assert (Hstock : dict_get data1 "stock" = dict_get d "stock").
    { destruct Hy as [[_ ->]|(? & ? & _ & _ & ->)]; [|rewrite dict_get_set_ne by done];
        apply Hdata; auto. }
    destruct (coerce_field data1 "stock") as [data2| |e]; [|eauto|].
    + intros _. exfalso. destruct Hf as [-> | ->].
      * rewrite Hdata, Hv in Hy by auto.
        destruct Hy as [[[=] _]|(? & ? & [= <-] & Hok & _)]. by rewrite Hok in Hbad.
      * rewrite Hstock, Hv in Hs.
        destruct Hs as [[[=] _]|(? & ? & [= <-] & Hok & _)]. by rewrite Hok in Hbad.
    + destruct Hs as (w & Hw & Hraise & ->). rewrite Hstock in Hw.
      by destruct (Hfin "stock" w (or_intror eq_refl) Hw).
  - destruct Hy as (w & Hw & Hraise & ->). rewrite Hdata in Hw by auto.
    by destruct (Hfin "year" w (or_introl eq_refl) Hw).
Qed.

(** C3, at an infinite [year]: [int] fails with [OverflowError], which the
    [except] clause does not name; the request ends in that exception
    instead of a validation error. The book is left as it was. *)
Theorem update_infinite_year_escapes (us : gmap string string) :
  update_book_func "BK001"
    (PDict [("title", PStr "Designing Your Work Life"); ("year", PFloat (FInf false))])
    (Some "admin") (State us initial_books)
  = (Raise OverflowError, State us initial_books).
Proof. vm_compute. reflexivity. Qed.

(** *** What an update can reach *)

(** The loop leaves alone an attribute the items do not name, as long as no
    item assigns [__dict__]. *)
Lemma apply_fields_keeps (items : dict) (book : obj) (f : string) :
  dict_get items "__dict__" = None -> dict_get items f = None ->
  snd (apply_fields book items) !! f = book !! f.
Proof.
  revert book. induction items as [|[k v] items IH]; intros book Hd Hf; [reflexivity|].
  cbn [dict_get] in Hd, Hf.
  destruct (decide (k = "__dict__")) as [|Hk]; [done|].
  destruct (decide (k = f)) as [|Hkf]; [done|].
  cbn [apply_fields]. destruct (hasattr book k); [|by apply IH].
  unfold setattr, class_lookup. rewrite decide_False by done.
  repeat (case_decide; [reflexivity|]).
  assert (snd (apply_fields (<[k:=v]> book) items) !! f = book !! f) as Hins
    by (rewrite IH by done; by apply lookup_insert_ne).
  by destruct (bool_decide _).
Qed.

(** Without a [__dict__] key in the body, an update cannot change the [id]
    or the [owner] of the book, however it ends. *)
Lemma update_keeps_id_owner
    (st : state) (book_id : string) (g : option string) (b : obj) (d : dict) :
  books st !! KStr book_id = Some b ->
  dict_get d "__dict__" = None ->
  exists b',
    books (snd (update_book_func book_id (PDict d) g st)) !! KStr book_id = Some b'
    /\ b' !! "id" = b !! "id" /\ b' !! "owner" = b !! "owner".
Proof.
  intros Hb Hd. unfold update_book_func, get_book_or_404. rewrite Hb.
  destruct (ensure_owner g b) as [[r|]|e]; [by exists b| |by exists b].
  rewrite py_or_body. cbn [method_pop].
  set (data := dict_pop (dict_pop d "owner") "id").
  assert (Hdata : dict_get data "__dict__" = None /\ dict_get data "id" = None
                  /\ dict_get data "owner" = None).
  { unfold data. rewrite !dict_get_pop_eq. rewrite !dict_get_pop_ne by done.
    by rewrite dict_get_pop_eq. }
  assert (Hstep : forall data0 data1 k, k = "year" \/ k = "stock" ->
    (dict_get data0 "__dict__" = None /\ dict_get data0 "id" = None
     /\ dict_get data0 "owner" = None) ->
    coerce_field data0 k = Coerced data1 ->
    dict_get data1 "__dict__" = None /\ dict_get data1 "id" = None
    /\ dict_get data1 "owner" = None).
  { intros data0 data1 k Hk H0 Hc. pose proof (coerce_field_spec data0 k) as Hs.
    rewrite Hc in Hs. destruct Hs as [[_ ->]|(? & ? & _ & _ & ->)]; [done|].
    by destruct Hk as [-> | ->]; rewrite !dict_get_set_ne by done. }
  destruct (coerce_field data "year") as [data1| |e] eqn:Hy; [|by exists b..].
  apply Hstep in Hy; [|auto|done].
  destruct (coerce_field data1 "stock") as [data2| |e] eqn:Hs; [|by exists b..].
  apply Hstep in Hs as (H1 & H2 & H3); [|auto|done].
  pose proof (apply_fields_keeps data2 b "id" H1 H2) as Hid.
  pose proof (apply_fields_keeps data2 b "owner" H1 H3) as Hown.
  destruct (apply_fields b data2) as [r b']. cbn [fst snd] in *.
  exists b'. cbn [books set_books]. by rewrite lookup_insert_eq.
Qed.

(** C4, at a body that assigns [__dict__]: the update succeeds and the
    book's recorded owner is no longer the one recorded at creation. *)
Theorem update_instance_dict_changes_owner (us : gmap string string) :
  exists resp st' b b',
    update_book_func "BK001" instance_dict_payload (Some "admin") (State us initial_books)
    = (Ok resp, st')
    /\ resp_status resp = 200%Z
    /\ initial_books !! KStr "BK001" = Some b /\ b !! "owner" = Some (PStr "admin")
    /\ books st' !! KStr "BK001" = Some b' /\ b' !! "owner" = Some (PStr "mallory").
Proof.
  eexists _, _, _, _. split; [vm_compute; reflexivity|].
  repeat split; vm_compute; reflexivity.
Qed.

(** *** Identifiers *)

(** Creating under the id of a book in the catalog is refused and leaves
    the store as it was. *)
Lemma create_existing_id_refused
    (st : state) (g : option string) (d : dict) (book_id : pyval) (k : key) (b : obj) :
  dict_get d "id" = Some book_id -> truthy book_id = true ->
  hash_key book_id = Ok k -> books st !! k = Some b ->
  create_book_func (PDict d) g st
  = (Ok (jsonify (error_body "Book with this id already exists") 400), st).
Proof.
  intros Hid Ht Hk Hb. unfold create_book_func, create_book_checks.
  rewrite (py_or_dict _ _ _ _ Hid), Hid. cbn [default from_option id].
  rewrite Ht, Hk, bind_Ok, Hb. cbn [negb].
  by rewrite bool_decide_eq_true_2.
Qed.

(** C5, after one update whose body assigns [__dict__]: two books of the
    catalog carry the same id. *)
Theorem update_instance_dict_duplicates_id (us : gmap string string) :
  exists resp st' b1 b2,
    update_book_func "BK001" instance_dict_payload (Some "admin") (State us initial_books)
    = (Ok resp, st')
    /\ books st' !! KStr "BK001" = Some b1
    /\ books st' !! KStr "BK002" = Some b2
    /\ b1 !! "id" = Some (PStr "BK002")
    /\ b2 !! "id" = Some (PStr "BK002").
Proof.
  eexists _, _, _, _. split; [vm_compute; reflexivity|].
  repeat split; vm_compute; reflexivity.
Qed.

(** *** Bodies that are not objects *)

(** C9, at a body that is a JSON array: each handler that reads the body
    ends in an exception of the call it makes on it, and at an id that is an
    array creation ends in the exception of the dict lookup. *)
Theorem array_body_escapes (salt : string) (st : state) (us : gmap string string) :
  register salt (PList [PInt 1]) st = (Raise AttributeError, st)
  /\ create_book_func (PList [PInt 1]) (Some "admin") st = (Raise AttributeError, st)
  /\ update_book_func "BK001" (PList [PInt 1]) (Some "admin") (State us initial_books)
     = (Raise TypeError, State us initial_books)
  /\ create_book_func (PDict [("id", PList [PInt 1])]) (Some "admin") st
     = (Raise TypeError, st).
Proof.
  repeat split; reflexivity.
Qed.

End AppProperties.

(** ** The statements at concrete requests *)

Lemma unknown_user_same_as_wrong_password_witness :
  users demo_state !! "mallory" = None
  /\ users demo_state !! "admin" = Some "plain$$admin123"
  /\ check_password_hash "plain$$admin123" "letmein99" = Ok false
  /\ require_auth me_func (Some ("mallory", "letmein99")) demo_state
     = require_auth me_func (Some ("admin", "letmein99")) demo_state.
Proof.
  assert (H1 : users demo_state !! "mallory" = None) by reflexivity.
  assert (H2 : users demo_state !! "admin" = Some "plain$$admin123") by reflexivity.
  assert (H3 : check_password_hash "plain$$admin123" "letmein99" = Ok false) by reflexivity.
  split; [exact H1|]. split; [exact H2|]. split; [exact H3|].
  refine (proj1 (unknown_user_same_as_wrong_password me_func demo_state
                   "mallory" "admin" "plain$$admin123" "letmein99" "letmein99"
                   _ _ _ _ H1 H2 H3)); discriminate.
Defined.

Lemma delete_then_not_found_witness :
  delete_book (Some ("admin", "admin123")) "BK003" demo_state
  = (Ok (jsonify (PDict [("message", PStr "Book deleted")]) 200),
     set_books demo_state (delete (KStr "BK003") initial_books))
  /\ get_book "BK003" (set_books demo_state (delete (KStr "BK003") initial_books))
     = (Ok not_found, set_books demo_state (delete (KStr "BK003") initial_books)).
Proof.
  assert (H1 : delete_book (Some ("admin", "admin123")) "BK003" demo_state
               = (Ok (jsonify (PDict [("message", PStr "Book deleted")]) 200),
                  set_books demo_state (delete (KStr "BK003") initial_books)))
    by reflexivity.
  split; [exact H1|].
  exact (proj1 (delete_then_not_found _ _ _ _ _ H1 eq_refl)).
Defined.

Lemma create_then_read_witness :
  authenticate (users demo_state) (Some ("carol", "Passw0rd")) = Ok (inr "carol")
  /\ books demo_state !! KStr "BK999" = None
  /\ py_int (PStr "2020") = Ok 2020%Z
  /\ py_int (PFloat (FFin false 7 (-1))) = Ok 3%Z
  /\ exists resp st',
       create_book (Some ("carol", "Passw0rd")) (PDict bk999_payload) demo_state = (Ok resp, st')
       /\ resp_status resp = 201%Z
       /\ get_book "BK999" st'
          = (Ok (jsonify (PDict [("id", PStr "BK999"); ("title", PStr "X"); ("author", PStr "Y");
                                 ("publisher", PStr "Z"); ("year", PInt 2020);
                                 ("genre", PStr "G"); ("stock", PInt 3);
                                 ("owner", PStr "carol")]) 200), st').
Proof.
  assert (H1 : authenticate (users demo_state) (Some ("carol", "Passw0rd"))
               = Ok (inr "carol")) by reflexivity.
  assert (H2 : books demo_state !! KStr "BK999" = None) by reflexivity.
  assert (H3 : py_int (PStr "2020") = Ok 2020%Z) by reflexivity.
  assert (H4 : py_int (PFloat (FFin false 7 (-1))) = Ok 3%Z) by reflexivity.
  split; [exact H1|]. split; [exact H2|]. split; [exact H3|]. split; [exact H4|].
  refine (create_then_read demo_state (Some ("carol", "Passw0rd")) "carol" "BK999"
            bk999_payload (PStr "X") (PStr "Y") (PStr "Z") (PStr "G")
            (PStr "2020") (PFloat (FFin false 7 (-1))) 2020 3
            H1 _ _ H2 _ _ _ _ _ _ _ _ _ H3 _ H4); solve [reflexivity | discriminate].
Defined.

Lemma register_strips_username_witness :
  dict_get [("username", PStr " alice "); ("password", PStr "Wonder1and ")] "username"
  = Some (PStr " alice ")
  /\ register "salt"
       (PDict [("username", PStr " alice "); ("password", PStr "Wonder1and ")]) demo_state
     = register "salt"
         (PDict [("username", PStr "alice"); ("password", PStr "Wonder1and ")]) demo_state
  /\ snd (register "salt"
            (PDict [("username", PStr " alice "); ("password", PStr "Wonder1and ")]) demo_state)
     = set_users demo_state (<["alice" := "plain$$Wonder1and "]> (users demo_state)).
Proof.
  assert (H1 : dict_get [("username", PStr " alice "); ("password", PStr "Wonder1and ")]
                 "username" = Some (PStr " alice ")) by reflexivity.
  destruct (register_strips_username "salt" _ " alice " demo_state H1) as (Heq & _ & Hst).
  split; [exact H1|]. split; [exact Heq|].
  assert (H2 : register "salt"
                 (PDict [("username", PStr " alice "); ("password", PStr "Wonder1and ")])
                 demo_state
               = (Ok (jsonify (PDict [("message", PStr "User registered successfully")]) 201),
                  snd (register "salt"
                         (PDict [("username", PStr " alice ");
                                 ("password", PStr "Wonder1and ")]) demo_state)))
    by reflexivity.
  destruct (Hst _ _ H2 eq_refl) as (_ & password & password_hash & Hp & Hh & Hs).
  rewrite Hs. injection Hp as <-. injection Hh as <-. reflexivity.
Defined.

(** ** Further properties of the handlers *)

Section Coverage.

Context {lib : Library}.

(** *** Authentication *)

(** X1: the wrapper lets a request through exactly when it carries a
    non-empty username and password, the username is in the store, and the
    password passes the check against the stored hash; the identity it
    passes on is that username. *)
Theorem authenticate_accepts_iff
    (us : gmap string string) (auth : option (string * string)) (u : string) :
  authenticate us auth = Ok (inr u)
  <-> exists password pwhash,
        auth = Some (u, password) /\ u <> "" /\ password <> ""
        /\ us !! u = Some pwhash /\ check_password_hash pwhash password = Ok true.
Proof.
  unfold authenticate. split.
  - destruct auth as [[username password]|]; [|done].
    destruct (bool_decide (username = "")) eqn:Hu; [done|].
    destruct (bool_decide (password = "")) eqn:Hp; [done|].
    apply bool_decide_eq_false in Hu, Hp. cbn [orb].
    destruct (us !! username) as [h|] eqn:Hh; [|done].
    destruct (check_password_hash h password) as [[]|e] eqn:Hc;
      rewrite ?bind_Ok, ?bind_Raise; [|done|done].
    intros [= <-]. eauto 10.
  - intros (password & h & -> & Hu & Hp & Hh & Hc).
    rewrite !bool_decide_eq_false_2 by done. cbn [orb]. by rewrite Hh, Hc.
Qed.

(** X2: a request the wrapper does not let through never reaches the
    handler. Either it is answered 401 with the Basic challenge, or the
    password check itself raises, on a stored hash it cannot read, and the
    exception escapes; the store is left as it was in both cases. Otherwise
    the outcome is the handler's, run with the authenticated username. *)
Theorem require_auth_outcomes
    (func : option string -> state -> outcome) (auth : option (string * string)) (st : state) :
  (exists u, authenticate (users st) auth = Ok (inr u)
             /\ require_auth func auth st = func (Some u) st)
  \/ (exists r, require_auth func auth st = (Ok r, st)
                /\ resp_status r = 401%Z /\ resp_headers r = challenge)
  \/ (exists username password pwhash e,
        auth = Some (username, password) /\ users st !! username = Some pwhash
        /\ check_password_hash pwhash password = Raise e
        /\ require_auth func auth st = (Raise e, st)).
Proof.
  unfold require_auth. destruct (authenticate (users st) auth) as [[r|u]|e] eqn:Hauth.
  - right. left. exists r. split; [done|]. revert Hauth. unfold authenticate.
    destruct auth as [[username password]|]; [|by intros [= <-]].
    destruct (_ || _); [by intros [= <-]|].
    destruct (users st !! username); [|by intros [= <-]].
    destruct (check_password_hash _ _) as [[]|e]; rewrite ?bind_Ok, ?bind_Raise;
      [done | by intros [= <-] | done].
  - left. eauto.
  - right. right. revert Hauth. unfold authenticate.
    destruct auth as [[username password]|]; [|done].
    destruct (_ || _); [done|].
    destruct (users st !! username) as [h|] eqn:Hh; [|done].
    destruct (check_password_hash h password) as [[]|e'] eqn:Hc;
      rewrite ?bind_Ok, ?bind_Raise; [done|done|].
    intros [= ->]. eauto 10.
Qed.

(** X3: the guard lets through exactly the user recorded as the book's
    owner: it returns no response if and only if there is a non-empty
    current user and the book's [owner] attribute is that string. *)
Theorem ensure_owner_passes_iff (g : option string) (book : obj) :
  ensure_owner g book = Ok None
  <-> exists u, g = Some u /\ u <> "" /\ book !! "owner" = Some (PStr u).
Proof.
  unfold ensure_owner, getattr. split.
  - destruct g as [u|]; [|done].
    destruct (bool_decide (u = "")) eqn:Hu; [done|]. apply bool_decide_eq_false in Hu.
    destruct (book !! "owner") as [o|]; [|done]. rewrite bind_Ok.
    destruct o; cbn [py_ne_str]; try done.
    destruct (bool_decide (s = u)) eqn:Hs; [|done].
    apply bool_decide_eq_true in Hs as ->. eauto.
  - intros (u & -> & Hu & Ho). rewrite bool_decide_eq_false_2 by done.
    rewrite Ho, bind_Ok. cbn [py_ne_str]. by rewrite bool_decide_eq_true_2.
Qed.

(** *** Registration *)

Lemma py_or_str_empty (s : string) : py_or (PStr s) (PStr "") = PStr s.
Proof. by destruct s. Qed.

(** X4: a store that differs after [register] means the request was answered
    201: a rejected request, or one that ends in an exception, changes
    nothing. *)
Theorem register_unchanged_unless_created (salt : string) (body : pyval) (st : state) :
  snd (register salt body st) = st
  \/ exists resp, fst (register salt body st) = Ok resp /\ resp_status resp = 201%Z.
Proof.
  unfold register. destruct (register_checks salt body (users st)) as [[r|[u h]]|e];
    [by left | right; by eexists | by left].
Qed.

(** X5: a username that is taken is refused as such whatever the password
    is, provided one is given: the test comes before the password policy. *)
Theorem register_existing_username_refused
    (salt : string) (d : dict) (u : string) (p : pyval) (st : state) :
  dict_get d "username" = Some (PStr u) ->
  dict_get d "password" = Some p -> truthy p = true ->
  (3 <= String.length (strip u))%nat ->
  is_Some (users st !! strip u) ->
  register salt (PDict d) st
  = (Ok (jsonify (error_body "username already exists") 400), st).
Proof.
  intros Hu Hp Ht Hlen Hin. unfold register.
  rewrite (register_checks_username _ _ _ _ Hu), Hp. cbv zeta.
  cbn [default from_option id]. unfold py_or. rewrite Ht. cbv beta iota.
  rewrite Ht. cbn [negb].
  assert (strip u <> "") as Hne by (intros E; rewrite E in Hlen; cbn in Hlen; lia).
  rewrite bool_decide_eq_false_2 by done. cbn [orb].
  destruct (Nat.ltb_spec (String.length (strip u)) 3); [lia|].
  by rewrite bool_decide_eq_true_2.
Qed.

(** X6: a string username of at least three characters after stripping that
    is not taken, with a string password of at least eight characters that
    has a digit and a letter and that the library hashes without raising, is
    registered: the answer is 201 and the store gains the stripped name with
    the hash of the password. *)
Theorem register_accepts
    (salt : string) (d : dict) (u password h : string) (cd ca : ascii) (st : state) :
  dict_get d "username" = Some (PStr u) ->
  dict_get d "password" = Some (PStr password) ->
  (3 <= String.length (strip u))%nat ->
  users st !! strip u = None ->
  (8 <= String.length password)%nat ->
  cd ∈ chars password -> isdigit cd = true ->
  ca ∈ chars password -> isalpha ca = true ->
  generate_password_hash salt password = Ok h ->
  register salt (PDict d) st
  = (Ok (jsonify (PDict [("message", PStr "User registered successfully")]) 201),
     set_users st (<[strip u := h]> (users st))).
Proof.
  intros Hu Hp Hlen Hfresh Hplen Hcd Hd Hca Ha Hgen. unfold register.
  rewrite (register_checks_username _ _ _ _ Hu), Hp. cbv zeta.
  cbn [default from_option id]. rewrite py_or_str_empty. cbn [truthy].
  assert (password <> "") as Hpne by (intros E; rewrite E in Hplen; cbn in Hplen; lia).
  assert (strip u <> "") as Hne by (intros E; rewrite E in Hlen; cbn in Hlen; lia).
  rewrite !bool_decide_eq_false_2 by done. cbn [negb orb].
  destruct (Nat.ltb_spec (String.length (strip u)) 3); [lia|].
  rewrite Hfresh. rewrite bool_decide_eq_false_2 by (by intros [? [=]]).
  rewrite validate_password_str.
  destruct (Nat.ltb_spec (String.length password) 8); [lia|].
  assert (existsb isdigit (chars password) = true) as ->
    by (apply existsb_elem_of; eauto).
  assert (existsb isalpha (chars password) = true) as ->
    by (apply existsb_elem_of; eauto).
  cbn [andb negb]. rewrite bind_Ok. cbn [hash_password]. by rewrite Hgen, bind_Ok.
Qed.

(** X7: registration and authentication compose: once [register] has
    answered 201 for a username and a password, a request carrying the
    stripped username and that password is let through by the wrapper, as
    long as the library's check accepts a hash the library generated for the
    same password. *)
Theorem register_then_authenticate
    (salt : string) (d : dict) (u password : string) (st st' : state) (resp : response) :
  (forall s pw h, generate_password_hash s pw = Ok h -> check_password_hash h pw = Ok true) ->
  dict_get d "username" = Some (PStr u) ->
  dict_get d "password" = Some (PStr password) ->
  register salt (PDict d) st = (Ok resp, st') ->
  resp_status resp = 201%Z ->
  authenticate (users st') (Some (strip u, password)) = Ok (inr (strip u)).
Proof.
  intros Hlib Hu Hp. unfold register.
  rewrite (register_checks_username _ _ _ _ Hu), Hp. cbv zeta.
  cbn [default from_option id]. rewrite py_or_str_empty. cbn [truthy].
  destruct (bool_decide (strip u = "")) eqn:Hne; [by intros [= <- <-]|].
  destruct (bool_decide (password = "")) eqn:Hpne; [by intros [= <- <-]|].
  apply bool_decide_eq_false in Hne, Hpne. cbn [negb orb].
  destruct (_ <? _)%nat; [by intros [= <- <-]|].
  destruct (bool_decide (is_Some _)); [by intros [= <- <-]|].
  destruct (validate_password _) as [[msg|]|e]; rewrite ?bind_Ok, ?bind_Raise;
    [by intros [= <- <-] | | by intros [=]].
  cbn [hash_password].
  destruct (generate_password_hash salt password) as [h|e] eqn:Hgen;
    rewrite ?bind_Ok, ?bind_Raise; [|by intros [=]].
  intros [= <- <-] _.
  unfold authenticate. rewrite !bool_decide_eq_false_2 by done. cbn [orb users set_users].
  by rewrite lookup_insert_eq, (Hlib _ _ _ Hgen).
Qed.

(** X8: for a body that is a JSON object whose [username] and [password],
    where present, are strings or [null], [register] answers with 201 or
    400, and the one exception that can escape it is one the library raises
    while hashing a password that has passed every check; the store is then
    left as it was. *)
Theorem register_answers_on_strings (salt : string) (d : dict) (st : state) :
  (forall v, dict_get d "username" = Some v -> str_or_null v) ->
  (forall v, dict_get d "password" = Some v -> str_or_null v) ->
  (exists resp, fst (register salt (PDict d) st) = Ok resp
                /\ (resp_status resp = 201%Z \/ resp_status resp = 400%Z))
  \/ (exists password e,
        dict_get d "password" = Some (PStr password)
        /\ generate_password_hash salt password = Raise e
        /\ register salt (PDict d) st = (Raise e, st)).
Proof.
  intros Hu Hp. unfold register, register_checks.
  rewrite py_or_body. cbn [method_get]. rewrite bind_Ok.
  assert (exists username, method_strip (py_or (default PNone (dict_get d "username"))
                                          (PStr "")) = Ok username) as [username ->].
  { destruct (dict_get d "username") as [v|]; [|by eexists].
    destruct (Hu v eq_refl) as [->|[s ->]]; [by eexists|].
    cbn [default from_option id]. rewrite py_or_str_empty. by eexists. }
  rewrite !bind_Ok.
  assert (exists pw, py_or (default PNone (dict_get d "password")) (PStr "") = PStr pw
                     /\ (pw <> "" -> dict_get d "password" = Some (PStr pw)))
    as (pw & -> & Hpw).
  { destruct (dict_get d "password") as [v|]; [|by exists ""].
    destruct (Hp v eq_refl) as [->|[s ->]]; [by exists ""|].
    cbn [default from_option id]. rewrite py_or_str_empty. by eexists. }
  cbn [truthy]. destruct (bool_decide (pw = "")) eqn:Hne.
  { rewrite orb_true_r. eauto. }
  apply bool_decide_eq_false in Hne. cbn [negb]. rewrite orb_false_r.
  destruct (bool_decide (username = "")); [eauto|]. destruct (_ <? _)%nat; [eauto|].
  destruct (bool_decide _); [eauto|].
  rewrite validate_password_str, bind_Ok.
  destruct (_ <? _)%nat; [eauto|]. destruct (negb _); [eauto|].
  cbn [hash_password].
  destruct (generate_password_hash salt pw) as [h|e] eqn:Hgen;
    rewrite ?bind_Ok, ?bind_Raise; [eauto|].
  right. exists pw, e. eauto.
Qed.

(** *** Creation *)

(** What [create_book] has established when it goes on to store a book. *)
Lemma create_book_checks_stores
    (g : option string) (body : pyval) (bs : gmap key obj) (k : key) (new_book : obj) :
  create_book_checks g body bs = Ok (inr (k, new_book)) ->
  exists data book_id title author publisher genre year stock u,
    body = PDict data /\ g = Some u
    /\ dict_get data "id" = Some book_id /\ truthy book_id = true
    /\ hash_key book_id = Ok k /\ bs !! k = None
    /\ dict_get data "title" = Some title /\ dict_get data "author" = Some author
    /\ dict_get data "publisher" = Some publisher /\ dict_get data "genre" = Some genre
    /\ (exists y, dict_get data "year" = Some y /\ py_int y = Ok year)
    /\ (exists s, dict_get data "stock" = Some s /\ py_int s = Ok stock)
    /\ new_book = Book book_id title author publisher (PInt year) genre (PInt stock) (PStr u).
Proof.
  unfold create_book_checks. destruct (py_or body (PDict [])) as [| | | | | |data] eqn:Hbody;
    try done.
  destruct (dict_get data "id") as [book_id|] eqn:Hid; cbn [default from_option id];
    [|done].
  assert (body = PDict data) as ->.
  { unfold py_or in Hbody. destruct (truthy body); [done|].
    injection Hbody as <-. discriminate Hid. }
  destruct (truthy book_id) eqn:Ht; [|done]. cbn [negb].
  destruct (hash_key book_id) as [k'|e] eqn:Hh; rewrite ?bind_Ok, ?bind_Raise; [|done].
  destruct (bool_decide (is_Some (bs !! k'))) eqn:Hk; [done|].
  apply bool_decide_eq_false in Hk. rewrite <- eq_None_not_Some in Hk.
  destruct (negb (bool_decide _)); [done|]. unfold dict_item.
  destruct (dict_get data "year") as [y|] eqn:Hy'; rewrite ?bind_Ok, ?bind_Raise; [|done].
  destruct (py_int y) as [year|e] eqn:Hy; rewrite ?bind_Ok, ?bind_Raise;
    [|by destruct e].
  destruct (dict_get data "stock") as [s|] eqn:Hs'; rewrite ?bind_Ok, ?bind_Raise; [|done].
  destruct (py_int s) as [stock|e] eqn:Hs; rewrite ?bind_Ok, ?bind_Raise;
    [|by destruct e].
  destruct (dict_get data "title") as [title|] eqn:Ht'; rewrite ?bind_Ok, ?bind_Raise;
    [|done].
  destruct (dict_get data "author") as [author|] eqn:Ha'; rewrite ?bind_Ok, ?bind_Raise;
    [|done].
  destruct (dict_get data "publisher") as [publisher|] eqn:Hp'; rewrite ?bind_Ok, ?bind_Raise;
    [|done].
  destruct (dict_get data "genre") as [genre|] eqn:Hg'; rewrite ?bind_Ok, ?bind_Raise;
    [|done].
  destruct g as [u|]; [|done]. intros [= <- <-].
  eexists data, book_id, title, author, publisher, genre, year, stock, u.
  repeat (split; [done|]). split; [by eexists|]. split; [by eexists|]. done.
Qed.

(** What [asdict] makes of a new instance: its items, or the
    [RecursionError] of a value nested beyond the limit. *)
Lemma asdict_Book_cases (id title author publisher year genre stock owner : pyval) :
  (exists d, asdict (Book id title author publisher year genre stock owner) = Ok d)
  \/ (asdict (Book id title author publisher year genre stock owner) = Raise RecursionError
      /\ exists v, v ∈ [id; title; author; publisher; year; genre; stock; owner]
                   /\ exceeds_limit v = true).
Proof.
  unfold asdict, Book. rewrite !lookup_insert_ne, lookup_empty by done.
  cbn [read_fields book_fields]. unfold getattr, copy_value.
  repeat (rewrite ?lookup_insert_eq, ?bind_Ok; rewrite ?lookup_insert_ne by done).
  destruct (exceeds_limit id) eqn:H1;
    [right; split; [done|]; exists id; split; [|done]; apply list_elem_of_In; cbn; tauto|].
  rewrite bind_Ok.
  destruct (exceeds_limit title) eqn:H2;
    [right; split; [done|]; exists title; split; [|done]; apply list_elem_of_In; cbn; tauto|].
  rewrite bind_Ok.
  destruct (exceeds_limit author) eqn:H3;
    [right; split; [done|]; exists author; split; [|done]; apply list_elem_of_In; cbn; tauto|].
  rewrite bind_Ok.
  destruct (exceeds_limit publisher) eqn:H4;
    [right; split; [done|]; exists publisher; split; [|done]; apply list_elem_of_In; cbn;
     tauto|].
  rewrite bind_Ok.
  destruct (exceeds_limit year) eqn:H5;
    [right; split; [done|]; exists year; split; [|done]; apply list_elem_of_In; cbn; tauto|].
  rewrite bind_Ok.
  destruct (exceeds_limit genre) eqn:H6;
    [right; split; [done|]; exists genre; split; [|done]; apply list_elem_of_In; cbn; tauto|].
  rewrite bind_Ok.
  destruct (exceeds_limit stock) eqn:H7;
    [right; split; [done|]; exists stock; split; [|done]; apply list_elem_of_In; cbn; tauto|].
  rewrite bind_Ok.
  destruct (exceeds_limit owner) eqn:H8;
    [right; split; [done|]; exists owner; split; [|done]; apply list_elem_of_In; cbn; tauto|].
  rewrite bind_Ok. left. by eexists.
Qed.

(** X9: [create_book] either leaves the store as it was or adds one book
    under a key that was free; it never replaces or changes a book of the
    catalog, and never touches the users. When it adds a book it answers
    201, unless a value of the new book is nested beyond the recursion
    limit: then [RecursionError] escapes and the book stays in the store. *)
Theorem create_adds_one_or_nothing (body : pyval) (g : option string) (st : state) :
  snd (create_book_func body g st) = st
  \/ exists k new_book,
       books st !! k = None
       /\ snd (create_book_func body g st) = set_books st (<[k := new_book]> (books st))
       /\ ((exists resp, fst (create_book_func body g st) = Ok resp
                         /\ resp_status resp = 201%Z)
           \/ (fst (create_book_func body g st) = Raise RecursionError
               /\ exists f v, new_book !! f = Some v /\ exceeds_limit v = true)).
Proof.
  unfold create_book_func.
  destruct (create_book_checks g body (books st)) as [[r|[k b]]|e] eqn:Hc;
    [by left| |by left].
  right. apply create_book_checks_stores in Hc
    as (data & book_id & t & a & p & ge & y & s & u & _ & _ & _ & _ & _ & Hk & _ & _ & _ & _
        & _ & _ & ->).
  exists k. eexists. split; [done|]. split; [done|]. cbn [fst].
  unfold book_to_dict.
  destruct (asdict_Book_cases book_id t a p (PInt y) ge (PInt s) (PStr u))
    as [[d ->]|[-> (v & Hv & Hdeep)]].
  - left. rewrite bind_Ok. by eexists.
  - right. split; [done|].
    apply list_elem_of_In in Hv. cbn in Hv.
    destruct Hv as [<-|[<-|[<-|[<-|[<-|[<-|[<-|[<-|[]]]]]]]]]; try done.
    + by eexists "id", _.
    + by eexists "title", _.
    + by eexists "author", _.
    + by eexists "publisher", _.
    + by eexists "genre", _.
Qed.

(** X10: a payload with a usable id that is free and every required field is
    refused with 400 when [int] fails on [year] or on [stock] with
    [TypeError] or [ValueError] (neither being an infinite float); the store
    is left as it was. *)
Theorem create_bad_integer_rejected
    (d : dict) (g : option string) (st : state) (book_id year stock : pyval) (k : key) :
  dict_get d "id" = Some book_id -> truthy book_id = true ->
  hash_key book_id = Ok k -> books st !! k = None ->
  is_Some (dict_get d "title") -> is_Some (dict_get d "author") ->
  is_Some (dict_get d "publisher") -> is_Some (dict_get d "genre") ->
  dict_get d "year" = Some year -> dict_get d "stock" = Some stock ->
  py_int year <> Raise OverflowError -> py_int stock <> Raise OverflowError ->
  is_ok (py_int year) && is_ok (py_int stock) = false ->
  create_book_func (PDict d) g st
  = (Ok (jsonify (error_body "year and stock must be integers") 400), st).
Proof.
  intros Hid Ht Hk Hfresh [t Ht'] [a Ha] [p Hp] [ge Hg] Hy Hs Hyo Hso Hbad.
  unfold create_book_func, create_book_checks.
  rewrite (py_or_dict _ _ _ _ Hid), Hid. cbn [default from_option id].
  rewrite Ht, Hk, bind_Ok, Hfresh. cbn [negb].
  rewrite bool_decide_eq_false_2 by (by intros [? [=]]).
  cbn [required_fields List.filter].
  rewrite (dict_mem_Some _ _ _ Ht'), (dict_mem_Some _ _ _ Ha), (dict_mem_Some _ _ _ Hp),
    (dict_mem_Some _ _ _ Hg), (dict_mem_Some _ _ _ Hy), (dict_mem_Some _ _ _ Hs).
  cbn [negb]. rewrite bool_decide_eq_true_2 by done. cbn [negb].
  rewrite (dict_item_Some _ _ _ Hy), bind_Ok, (dict_item_Some _ _ _ Hs).
  destruct (py_int year) as [y|e] eqn:Hyi.
  - rewrite !bind_Ok. destruct (py_int stock) as [z|e] eqn:Hsi; [done|].
    rewrite bind_Raise. destruct (py_int_raises _ _ Hsi) as [->|[->| ->]]; done.
  - rewrite bind_Raise. destruct (py_int_raises _ _ Hyi) as [->|[->| ->]]; done.
Qed.

(** X11: for an authenticated caller and a body that is a JSON object whose
    id is absent, [null] or a string, whose [year] and [stock] are not
    infinite floats, and none of whose values is nested beyond the recursion
    limit, [create_book] always answers, with 201 or 400: no exception
    escapes it. *)
Theorem create_answers_on_wellformed (d : dict) (u : string) (st : state) :
  (forall v, dict_get d "id" = Some v -> str_or_null v) ->
  (forall k v, k = "year" \/ k = "stock" -> dict_get d k = Some v ->
               py_int v <> Raise OverflowError) ->
  (forall k v, dict_get d k = Some v -> exceeds_limit v = false) ->
  exists resp, fst (create_book_func (PDict d) (Some u) st) = Ok resp
               /\ (resp_status resp = 201%Z \/ resp_status resp = 400%Z).
Proof.
  intros Hid Hfin Hshallow. unfold create_book_func, create_book_checks. rewrite py_or_body.
  assert (exists k, truthy (default PNone (dict_get d "id")) = true ->
                    hash_key (default PNone (dict_get d "id")) = Ok k) as [k Hk].
  { destruct (dict_get d "id") as [v|]; [|by exists KNone].
    destruct (Hid v eq_refl) as [->|[s ->]]; eexists; reflexivity. }
  destruct (truthy _); [|eauto]. cbn [negb]. rewrite Hk, bind_Ok by done.
  destruct (bool_decide (is_Some _)); [eauto|].
  destruct (negb (bool_decide _)) eqn:Hmiss; [eauto|].
  apply negb_false_iff, bool_decide_eq_true in Hmiss.
  assert (Hall : forall f, f ∈ required_fields -> is_Some (dict_get d f)).
  { intros f Hf. destruct (dict_mem d f) eqn:Hm.
    - by apply bool_decide_eq_true in Hm.
    - assert (f ∈ List.filter (fun field => negb (dict_mem d field)) required_fields) as Hin.
      { apply list_elem_of_In, filter_In. split; [by apply list_elem_of_In|].
        by rewrite Hm. }
      rewrite Hmiss in Hin. by apply elem_of_nil in Hin. }
  unfold dict_item.
  destruct (Hall "year") as [y Hy]; [set_solver|].
  destruct (Hall "stock") as [s Hs]; [set_solver|].
  destruct (Hall "title") as [t Ht]; [set_solver|].
  destruct (Hall "author") as [a Ha]; [set_solver|].
  destruct (Hall "publisher") as [p Hp]; [set_solver|].
  destruct (Hall "genre") as [ge Hg]; [set_solver|].
  rewrite Hy, Hs, Ht, Ha, Hp, Hg, !bind_Ok.
  destruct (py_int y) as [yi|e] eqn:Hyi.
  - rewrite !bind_Ok. destruct (py_int s) as [si|e] eqn:Hsi.
    + rewrite !bind_Ok. unfold book_to_dict.
      rewrite asdict_Book, bind_Ok; eauto.
      destruct (dict_get d "id") as [v|] eqn:Hv; [by destruct (Hid v eq_refl) as [->|[? ->]]|].
      done.
    + rewrite bind_Raise. destruct (py_int_raises _ _ Hsi) as [->|[->| ->]]; eauto.
      by destruct (Hfin "stock" s (or_intror eq_refl) Hs).
  - rewrite bind_Raise. destruct (py_int_raises _ _ Hyi) as [->|[->| ->]]; eauto.
    by destruct (Hfin "year" y (or_introl eq_refl) Hy).
Qed.

(** *** Updates *)

(** X12: whatever the body and however the request ends, an update touches
    one entry at most: the users, the set of keys of the catalog and every
    book under another key are as before. *)
Theorem update_frame (book_id : string) (body : pyval) (g : option string) (st : state) :
  users (snd (update_book_func book_id body g st)) = users st
  /\ dom (books (snd (update_book_func book_id body g st))) = dom (books st)
  /\ forall k, k <> KStr book_id ->
       books (snd (update_book_func book_id body g st)) !! k = books st !! k.
Proof.
  unfold update_book_func, get_book_or_404.
  destruct (books st !! KStr book_id) as [b|] eqn:Hb; [|done].
  destruct (ensure_owner g b) as [[r|]|e]; [done| |done].
  destruct (method_pop _ _) as [data|e]; [|done].
  destruct (coerce_field _ "year") as [data1| |e]; [|done..].
  destruct (coerce_field _ "stock") as [data2| |e]; [|done..].
  destruct (apply_fields b data2) as [r b']. cbn [snd users books set_books].
  split; [done|]. split.
  - by apply dom_insert_lookup_L.
  - intros k Hk. by apply lookup_insert_ne.
Qed.

Lemma dict_get_None (d : dict) (k : string) : dict_get d k = None <-> k ∉ d.*1.
Proof.
  induction d as [|[k' v] d IH]; cbn [dict_get fmap list_fmap fst].
  - split; [intros _; apply not_elem_of_nil | done].
  - rewrite not_elem_of_cons. destruct (decide (k' = k)) as [->|Hne].
    + split; [done | by intros [? _]].
    + rewrite IH. split; [intros ?; split; [congruence | done] | by intros [_ ?]].
Qed.

Lemma dict_pop_keys (d : dict) (k x : string) : x ∈ (dict_pop d k).*1 -> x ∈ d.*1.
Proof.
  induction d as [|[k' v] d IH]; [done|]. cbn [dict_pop].
  destruct (decide (k' = k)); cbn [fmap list_fmap fst]; rewrite ?elem_of_cons;
    [by right; apply IH | intros [->|?]; [by left | right; by apply IH]].
Qed.

Lemma dict_pop_NoDup (d : dict) (k : string) : NoDup d.*1 -> NoDup (dict_pop d k).*1.
Proof.
  induction d as [|[k' v] d IH]; [done|]. cbn [dict_pop fmap list_fmap fst].
  rewrite NoDup_cons. intros [Hk Hd]. destruct (decide (k' = k)); [by apply IH|].
  cbn [fmap list_fmap fst]. apply NoDup_cons. split; [|by apply IH].
  intros Hin. by apply dict_pop_keys in Hin.
Qed.

Lemma dict_set_keys (d : dict) (k : string) (v : pyval) :
  is_Some (dict_get d k) -> (dict_set d k v).*1 = d.*1.
Proof.
  induction d as [|[k' v'] d IH]; cbn [dict_get dict_set]; [by intros [? [=]]|].
  destruct (decide (k' = k)) as [->|Hne]; [done|].
  intros H. cbn [fmap list_fmap fst]. f_equal. by apply IH.
Qed.

Lemma coerce_field_ok (data : dict) (k : string) :
  (forall v, dict_get data k = Some v -> is_ok (py_int v) = true) ->
  exists data',
    coerce_field data k = Coerced data' /\ data'.*1 = data.*1
    /\ forall f, dict_get data' f
                 = if decide (f = k)
                   then (fun v => match py_int v with Ok z => PInt z | Raise _ => v end)
                          <$> dict_get data k
                   else dict_get data f.
Proof.
  intros Hok. unfold coerce_field. destruct (dict_get data k) as [v|] eqn:Hv.
  - specialize (Hok v eq_refl). destruct (py_int v) as [z|e] eqn:Hz; [|done].
    eexists. split; [done|]. split; [apply dict_set_keys; by rewrite Hv|].
    intros f. destruct (decide (f = k)) as [->|Hne].
    + rewrite dict_get_set_eq. cbn. by rewrite Hz.
    + by rewrite dict_get_set_ne.
  - exists data. split; [done|]. split; [done|].
    intros f. destruct (decide (f = k)) as [->|Hne]; by rewrite ?Hv.
Qed.

(** The loop over items none of which names a class attribute: an item is
    assigned exactly when the book has the attribute. *)
Lemma apply_fields_plain (items : dict) (b : obj) :
  NoDup items.*1 ->
  (forall k, k ∈ items.*1 -> class_lookup k = None) ->
  exists b',
    apply_fields b items = (Ok tt, b')
    /\ forall f, b' !! f = match dict_get items f with
                           | Some v => if bool_decide (b !! f = None) then None else Some v
                           | None => b !! f
                           end.
Proof.
  revert b. induction items as [|[k v] items IH]; intros b Hnd Hplain.
  { exists b. done. }
  cbn [fmap list_fmap fst] in Hnd, Hplain. apply NoDup_cons in Hnd as [Hk Hnd].
  assert (class_lookup k = None) as Hck by (apply Hplain; by left).
  assert (forall k', k' ∈ items.*1 -> class_lookup k' = None) as Hplain'
    by (intros; apply Hplain; by right).
  apply dict_get_None in Hk.
  cbn [apply_fields]. unfold hasattr, setattr. rewrite Hck.
  rewrite (bool_decide_eq_false_2 (is_Some None)) by (by intros [? [=]]).
  rewrite orb_false_r.
  destruct (b !! k) as [old|] eqn:Hbk.
  - rewrite bool_decide_eq_true_2 by done.
    destruct (IH (<[k:=v]> b) Hnd Hplain') as (b' & -> & Hb'). exists b'. split; [done|].
    intros f. rewrite Hb'. cbn [dict_get]. destruct (decide (k = f)) as [<-|Hne].
    + rewrite Hk, lookup_insert_eq, Hbk. by rewrite bool_decide_eq_false_2.
    + by rewrite lookup_insert_ne.
  - rewrite bool_decide_eq_false_2 by (by intros [? [=]]).
    destruct (IH b Hnd Hplain') as (b' & -> & Hb'). exists b'. split; [done|].
    intros f. rewrite Hb'. cbn [dict_get]. destruct (decide (k = f)) as [<-|Hne]; [|done].
    by rewrite Hk, Hbk, bool_decide_eq_true_2.
Qed.

Lemma is_book_field (b : obj) (f : string) : is_book b -> f ∈ book_fields -> is_Some (b !! f).
Proof. intros [Hf _] Hin. by apply (proj1 (Forall_forall _ _) Hf). Qed.

Lemma set_books_id (st : state) (k : key) (b : obj) :
  books st !! k = Some b -> set_books st (<[k := b]> (books st)) = st.
Proof. intros Hb. destruct st as [us bs]. unfold set_books. cbn in *. by rewrite insert_id. Qed.

Lemma coerced_value_shallow (f : string) (v : pyval) :
  exceeds_limit v = false -> exceeds_limit (coerced_value f v) = false.
Proof.
  intros Hv. unfold coerced_value. destruct (_ || _); [|done]. by destruct (py_int v).
Qed.

(** X13: an update by the owner of an intact book none of whose values is
    nested beyond the recursion limit, with a body whose keys name no class
    attribute, whose values are not nested beyond the limit either, and
    whose [year] and [stock], where present, are accepted by [int], answers
    200 with the book as updated. Each field the
    body names, other than [id] and [owner], takes the submitted value
    ([year] and [stock] the integer [int] gives); [id], [owner] and the
    fields the body does not name keep their values; a key that is not an
    attribute of the book is ignored. *)
Theorem update_applies_fields
    (st : state) (book_id : string) (g : option string) (b : obj) (d : dict) :
  books st !! KStr book_id = Some b ->
  ensure_owner g b = Ok None ->
  is_book b ->
  shallow_book b ->
  NoDup d.*1 ->
  (forall k, k ∈ d.*1 -> class_lookup k = None) ->
  (forall k v, k = "year" \/ k = "stock" -> dict_get d k = Some v ->
               is_ok (py_int v) = true) ->
  (forall k v, dict_get d k = Some v -> exceeds_limit v = false) ->
  exists b',
    update_book_func book_id (PDict d) g st
    = (Ok (jsonify (PDict [("message", PStr "Book updated"); ("book", content b')]) 200),
       set_books st (<[KStr book_id := b']> (books st)))
    /\ is_book b' /\ shallow_book b'
    /\ forall f, b' !! f
                 = match dict_get d f with
                   | Some v =>
                       if bool_decide (f = "id") || bool_decide (f = "owner")
                          || bool_decide (b !! f = None)
                       then b !! f
                       else Some (coerced_value f v)
                   | None => b !! f
                   end.
Proof.
  intros Hb Hown Hbook Hshallow Hnd Hplain Hint Hvals.
  unfold update_book_func, get_book_or_404. rewrite Hb, Hown, py_or_body.
  cbn [method_pop]. set (data0 := dict_pop (dict_pop d "owner") "id").
  assert (Hnd0 : NoDup data0.*1) by (unfold data0; by do 2 apply dict_pop_NoDup).
  assert (Hkeys0 : forall k, k ∈ data0.*1 -> k ∈ d.*1)
    by (unfold data0; intros k Hk; by do 2 apply dict_pop_keys in Hk).
  assert (Hget0 : forall f, dict_get data0 f
                            = if bool_decide (f = "id") || bool_decide (f = "owner")
                              then None else dict_get d f).
  { intros f. unfold data0. destruct (decide (f = "id")) as [->|Hid].
    { by rewrite dict_get_pop_eq. }
    rewrite dict_get_pop_ne by done. destruct (decide (f = "owner")) as [->|Ho].
    { by rewrite dict_get_pop_eq. }
    rewrite dict_get_pop_ne by done. by rewrite !bool_decide_eq_false_2. }
  destruct (coerce_field_ok data0 "year") as (data1 & -> & Hkeys1 & Hget1).
  { intros v. rewrite Hget0. cbn. apply Hint. by left. }
  destruct (coerce_field_ok data1 "stock") as (data2 & -> & Hkeys2 & Hget2).
  { intros v. rewrite Hget1. rewrite decide_False by done. rewrite Hget0. cbn.
    apply Hint. by right. }
  assert (Hget : forall f, dict_get data2 f
                           = if bool_decide (f = "id") || bool_decide (f = "owner")
                             then None else coerced_value f <$> dict_get d f).
  { intros f. rewrite Hget2. unfold coerced_value. destruct (decide (f = "stock")) as [->|Hs].
    - rewrite Hget1, decide_False by done. rewrite Hget0. cbn.
      by destruct (dict_get d "stock").
    - rewrite Hget1. destruct (decide (f = "year")) as [->|Hy].
      + rewrite Hget0. cbn. by destruct (dict_get d "year").
      + rewrite Hget0. rewrite (bool_decide_eq_false_2 (f = "year")) by done.
        rewrite (bool_decide_eq_false_2 (f = "stock")) by done. cbn [orb].
        destruct (_ || _); [done|]. by destruct (dict_get d f). }
  destruct (apply_fields_plain data2 b) as (b' & -> & Hb').
  { by rewrite Hkeys2, Hkeys1. }
  { intros k Hk. apply Hplain, Hkeys0. by rewrite <- Hkeys1, <- Hkeys2. }
  assert (Hfield : forall f, b' !! f
                   = match dict_get d f with
                     | Some v =>
                         if bool_decide (f = "id") || bool_decide (f = "owner")
                            || bool_decide (b !! f = None)
                         then b !! f
                         else Some (coerced_value f v)
                     | None => b !! f
                     end).
  { intros f. rewrite Hb', Hget. destruct (bool_decide (f = "id") || bool_decide (f = "owner"));
      cbn [orb]; [by destruct (dict_get d f)|].
    destruct (dict_get d f) as [v|]; cbn [fmap option_fmap option_map]; [|done].
    destruct (bool_decide (b !! f = None)) eqn:Hbf; [|done].
    by apply bool_decide_eq_true in Hbf. }
  assert (Hbook' : is_book b').
  { split.
    - apply Forall_forall. intros f Hf. rewrite Hfield.
      pose proof (is_book_field b f Hbook Hf) as Hsome.
      destruct (dict_get d f); [|done]. by destruct (_ || _).
    - rewrite Hfield. destruct (dict_get d "__dataclass_fields__") as [v|] eqn:Hv;
        [|by destruct Hbook].
      assert ("__dataclass_fields__" ∈ d.*1) as Hin.
      { destruct (decide ("__dataclass_fields__" ∈ d.*1)) as [|Hn]; [done|].
        apply dict_get_None in Hn. congruence. }
      by apply Hplain in Hin. }
  assert (Hshallow' : shallow_book b').
  { apply Forall_forall. intros f Hf v. rewrite Hfield.
    pose proof (proj1 (Forall_forall _ _) Hshallow f Hf) as Hold.
    destruct (dict_get d f) as [w|] eqn:Hw; [|by apply Hold].
    destruct (_ || _); [by apply Hold|].
    intros [= <-]. eapply coerced_value_shallow, Hvals, Hw. }
  exists b'. split; [|done]. rewrite bind_Ok. unfold book_to_dict.
  by rewrite (asdict_is_book _ Hbook' Hshallow'), bind_Ok.
Qed.

Lemma apply_fields_none (items : dict) (b : obj) :
  (forall k, k ∈ items.*1 -> hasattr b k = false) -> apply_fields b items = (Ok tt, b).
Proof.
  induction items as [|[k v] items IH]; [done|]. cbn [fmap list_fmap fst]. intros Hno.
  cbn [apply_fields]. rewrite (Hno k) by by left. apply IH. intros; apply Hno; by right.
Qed.

(** X14: keys that are not attributes of the book are ignored: an update by
    the owner of an intact book, none of whose values is nested beyond the
    recursion limit, whose body has only such keys (the empty object among
    them) answers 200 with the book as it is and changes nothing. *)
Theorem update_unknown_keys_noop
    (st : state) (book_id : string) (g : option string) (b : obj) (d : dict) :
  books st !! KStr book_id = Some b ->
  ensure_owner g b = Ok None ->
  is_book b ->
  shallow_book b ->
  (forall k, k ∈ d.*1 -> hasattr b k = false) ->
  update_book_func book_id (PDict d) g st
  = (Ok (jsonify (PDict [("message", PStr "Book updated"); ("book", content b)]) 200), st).
Proof.
  intros Hb Hown Hbook Hshallow Hno.
  unfold update_book_func, get_book_or_404. rewrite Hb, Hown, py_or_body.
  cbn [method_pop]. set (data0 := dict_pop (dict_pop d "owner") "id").
  assert (Hkeys0 : forall k, k ∈ data0.*1 -> k ∈ d.*1)
    by (unfold data0; intros k Hk; by do 2 apply dict_pop_keys in Hk).
  assert (Habsent : forall f, f ∈ book_fields -> dict_get data0 f = None).
  { intros f Hf. apply dict_get_None. intros Hin. apply Hkeys0, Hno in Hin.
    unfold hasattr in Hin. apply orb_false_elim in Hin as [Hin _].
    apply bool_decide_eq_false in Hin. by apply Hin, is_book_field. }
  unfold coerce_field.
  rewrite !Habsent by (apply list_elem_of_In; cbn; tauto).
  rewrite apply_fields_none by (intros; by apply Hno, Hkeys0).
  rewrite bind_Ok. unfold book_to_dict. rewrite (asdict_is_book _ Hbook Hshallow), bind_Ok.
  by rewrite set_books_id.
Qed.

Lemma ensure_owner_None (g : option string) (book : obj) :
  ensure_owner g book = Ok None ->
  exists u, g = Some u /\ u <> "" /\ book !! "owner" = Some (PStr u).
Proof.
  unfold ensure_owner, getattr. destruct g as [u|]; [|done].
  destruct (bool_decide (u = "")) eqn:Hu; [done|]. apply bool_decide_eq_false in Hu.
  destruct (book !! "owner") as [o|]; [|done]. rewrite bind_Ok.
  destruct o; cbn [py_ne_str]; try done.
  destruct (bool_decide (s = u)) eqn:Hs; [|done].
  apply bool_decide_eq_true in Hs as ->. eauto.
Qed.

(** X15: an update changes the store only for the owner: if the store
    differs after [update_book], the request was authenticated as the user
    recorded as the owner of the book under that id. *)
Theorem update_changes_only_for_owner
    (auth : option (string * string)) (book_id : string) (body : pyval) (st : state) :
  snd (update_book auth book_id body st) = st
  \/ exists u b, authenticate (users st) auth = Ok (inr u)
                 /\ books st !! KStr book_id = Some b
                 /\ b !! "owner" = Some (PStr u).
Proof.
  unfold update_book, require_auth.
  destruct (authenticate (users st) auth) as [[r|u]|e] eqn:Hauth; [by left| |by left].
  unfold update_book_func, get_book_or_404.
  destruct (books st !! KStr book_id) as [b|] eqn:Hb; [|by left].
  destruct (ensure_owner (Some u) b) as [[r|]|e] eqn:Hown; [by left| |by left].
  apply ensure_owner_None in Hown as (u' & [= <-] & _ & Ho). right. eauto.
Qed.

(** *** Deletion *)

(** X17: a delete changes the store only for the owner, and then it removes
    exactly the book under that id: either the store is as before, or the
    request was authenticated as the owner recorded on the book, the answer
    is 200, and the catalog is the old one without that key. *)
Theorem delete_changes_only_for_owner
    (auth : option (string * string)) (book_id : string) (st : state) :
  snd (delete_book auth book_id st) = st
  \/ exists u b, authenticate (users st) auth = Ok (inr u)
                 /\ books st !! KStr book_id = Some b
                 /\ b !! "owner" = Some (PStr u)
                 /\ delete_book auth book_id st
                    = (Ok (jsonify (PDict [("message", PStr "Book deleted")]) 200),
                       set_books st (delete (KStr book_id) (books st))).
Proof.
  unfold delete_book, require_auth.
  destruct (authenticate (users st) auth) as [[r|u]|e] eqn:Hauth; [by left| |by left].
  unfold delete_book_func, get_book_or_404.
  destruct (books st !! KStr book_id) as [b|] eqn:Hb; [|by left].
  destruct (ensure_owner (Some u) b) as [[r|]|e] eqn:Hown; [by left| |by left].
  apply ensure_owner_None in Hown as (u' & [= <-] & _ & Ho). right. eauto 10.
Qed.

(** X18: the owner can delete: a request authenticated as the user recorded
    as the owner of the book under an id is answered 200, the book is gone
    from the catalog, and every other book and every user is as before. *)
Theorem delete_by_owner
    (auth : option (string * string)) (book_id u : string) (b : obj) (st : state) :
  authenticate (users st) auth = Ok (inr u) ->
  books st !! KStr book_id = Some b ->
  b !! "owner" = Some (PStr u) ->
  exists st',
    delete_book auth book_id st
    = (Ok (jsonify (PDict [("message", PStr "Book deleted")]) 200), st')
    /\ users st' = users st
    /\ books st' !! KStr book_id = None
    /\ forall k, k <> KStr book_id -> books st' !! k = books st !! k.
Proof.
  intros Hauth Hb Ho. unfold delete_book, require_auth. rewrite Hauth.
  unfold delete_book_func, get_book_or_404. rewrite Hb.
  assert (ensure_owner (Some u) b = Ok None) as ->.
  { unfold ensure_owner, getattr.
    pose proof (authenticate_nonempty _ _ _ Hauth) as Hu.
    rewrite bool_decide_eq_false_2 by done. rewrite Ho, bind_Ok. cbn [py_ne_str].
    by rewrite bool_decide_eq_true_2. }
  eexists. split; [done|]. cbn [users books set_books]. split; [done|].
  split; [apply lookup_delete_eq|]. intros k Hk. by apply lookup_delete_ne.
Qed.

(** *** Reads *)

(** X19: the listing and the single read agree: when [list_books] answers,
    it answers 200 with one entry per key of the catalog and leaves the
    store as it was, and [get_book] of any id returns the entry the listing
    has for it, or 404 when it has none. *)
Theorem list_agrees_with_get (st st' : state) (resp : response) :
  list_books st = (Ok resp, st') ->
  exists m,
    resp = Response (Listing m) 200 [] /\ st' = st
    /\ dom m = dom (books st)
    /\ forall book_id,
         get_book book_id st
         = (Ok (match m !! KStr book_id with
                | Some d => jsonify d 200
                | None => not_found
                end), st).
Proof.
  unfold list_books. destruct (decide _) as [Hall|]; [|done].
  destruct (decide _) as [Hsort|]; [|done]. intros [= <- <-].
  eexists. split; [done|]. split; [done|]. split; [apply dom_fmap_L|].
  intros book_id. unfold get_book, get_book_or_404. rewrite lookup_fmap.
  destruct (books st !! KStr book_id) as [b|] eqn:Hb; [|done].
  specialize (Hall _ _ Hb). cbn in Hall. cbn [fmap option_fmap option_map].
  by destruct (book_to_dict b).
Qed.

(** *** Sequences of requests *)

Lemma require_auth_cases
    (func : option string -> state -> outcome) (auth : option (string * string)) (st : state) :
  snd (require_auth func auth st) = st
  \/ exists u, require_auth func auth st = func (Some u) st.
Proof.
  unfold require_auth.
  destruct (authenticate (users st) auth) as [[r|u]|e]; [by left | right; eauto | by left].
Qed.

Lemma update_falsy_body (book_id : string) (body : pyval) (g : option string) (st : state) :
  truthy body = false ->
  update_book_func book_id body g st = update_book_func book_id (PDict []) g st.
Proof. intros Hf. unfold update_book_func, py_or. by rewrite Hf. Qed.

Lemma update_other_books (book_id : string) (body : pyval) (g : option string) (st : state)
    (k : key) :
  k <> KStr book_id ->
  books (snd (update_book_func book_id body g st)) !! k = books st !! k.
Proof.
  intros Hk. unfold update_book_func, get_book_or_404.
  destruct (books st !! KStr book_id) as [b|]; [|done].
  destruct (ensure_owner g b) as [[r|]|e]; [done| |done].
  destruct (method_pop _ _) as [data|e]; [|done].
  destruct (coerce_field _ "year") as [data1| |e]; [|done..].
  destruct (coerce_field _ "stock") as [data2| |e]; [|done..].
  destruct (apply_fields b data2) as [r b']. cbn [snd books set_books].
  by apply lookup_insert_ne.
Qed.

Lemma update_users (book_id : string) (body : pyval) (g : option string) (st : state) :
  users (snd (update_book_func book_id body g st)) = users st.
Proof.
  unfold update_book_func, get_book_or_404.
  destruct (books st !! KStr book_id) as [b|]; [|done].
  destruct (ensure_owner g b) as [[r|]|e]; [done| |done].
  destruct (method_pop _ _) as [data|e]; [|done].
  destruct (coerce_field _ "year") as [data1| |e]; [|done..].
  destruct (coerce_field _ "stock") as [data2| |e]; [|done..].
  by destruct (apply_fields b data2) as [r b'].
Qed.

Lemma keyed_by_id_update (book_id : string) (body : pyval) (g : option string) (st : state) :
  (forall d, body = PDict d -> dict_get d "__dict__" = None) ->
  keyed_by_id (books st) ->
  keyed_by_id (books (snd (update_book_func book_id body g st))).
Proof.
  intros Hd Hinv.
  assert (Hdict : forall d, dict_get d "__dict__" = None ->
            keyed_by_id (books (snd (update_book_func book_id (PDict d) g st)))).
  { intros d Hnone k b Hk. destruct (decide (k = KStr book_id)) as [->|Hne].
    - destruct (books st !! KStr book_id) as [b0|] eqn:Hb0.
      + destruct (update_keeps_id_owner st book_id g b0 d Hb0 Hnone) as (b' & Hb' & Hid & _).
        rewrite Hb' in Hk. injection Hk as <-. rewrite Hid. by apply Hinv.
      + revert Hk. unfold update_book_func, get_book_or_404. rewrite Hb0. cbn [snd].
        by rewrite Hb0.
    - rewrite update_other_books in Hk by done. by apply Hinv. }
  destruct (truthy body) eqn:Ht.
  - destruct body as [|bb|z|f|s|l|d]; try (by apply Hdict, Hd);
      (unfold update_book_func, get_book_or_404;
       destruct (books st !! KStr book_id) as [b0|]; [|done];
       destruct (ensure_owner g b0) as [[r|]|e]; [done| |done];
       unfold py_or; rewrite Ht; done).
  - rewrite update_falsy_body by done. by apply Hdict.
Qed.

Lemma keyed_by_id_create (body : pyval) (g : option string) (st : state) :
  keyed_by_id (books st) -> keyed_by_id (books (snd (create_book_func body g st))).
Proof.
  intros Hinv. unfold create_book_func.
  destruct (create_book_checks g body (books st)) as [[r|[k b]]|e] eqn:Hc; [done| |done].
  apply create_book_checks_stores in Hc
    as (data & book_id & t & a & p & ge & y & s & u & _ & _ & _ & _ & Hh & _ & _ & _ & _ & _
        & _ & _ & ->).
  cbn [snd books set_books]. intros k' b'. rewrite lookup_insert.
  case_decide as Hk; [|by apply Hinv]. intros [= <-]. subst k'.
  exists book_id. split; [|done]. unfold Book. apply lookup_insert_eq.
Qed.

Lemma keyed_by_id_delete (book_id : string) (g : option string) (st : state) :
  keyed_by_id (books st) -> keyed_by_id (books (snd (delete_book_func book_id g st))).
Proof.
  intros Hinv. unfold delete_book_func, get_book_or_404.
  destruct (books st !! KStr book_id) as [b|]; [|done].
  destruct (ensure_owner g b) as [[r|]|e]; [done| |done].
  cbn [snd books set_books]. intros k b' Hk.
  apply lookup_delete_Some in Hk as [_ Hk]. by apply Hinv.
Qed.

Lemma keyed_by_id_initial : keyed_by_id initial_books.
Proof.
  intros k b. unfold initial_books. rewrite !lookup_insert.
  repeat case_decide; subst; try (intros [= <-]; eexists; split; reflexivity).
Qed.

Lemma register_books (salt : string) (body : pyval) (st : state) :
  books (snd (register salt body st)) = books st.
Proof.
  unfold register. by destruct (register_checks salt body (users st)) as [[r|[u h]]|e].
Qed.

Lemma get_book_state (book_id : string) (st : state) : snd (get_book book_id st) = st.
Proof.
  unfold get_book. destruct (get_book_or_404 _ _) as [b|]; [|done].
  by destruct (book_to_dict b).
Qed.

Lemma list_books_state (st : state) : snd (list_books st) = st.
Proof. unfold list_books. destruct (decide _); [|done]. by destruct (decide _). Qed.

Lemma keyed_by_id_handle (r : request) (st : state) :
  ~ assigns_dict r -> keyed_by_id (books st) -> keyed_by_id (books (snd (handle r st))).
Proof.
  intros Hr Hinv. destruct r as [salt body|auth| |book_id|auth body|auth book_id body|auth book_id];
    cbn [handle].
  - by rewrite register_books.
  - unfold me. destruct (require_auth_cases me_func auth st) as [->|[u ->]]; [done|].
    by cbn.
  - by rewrite list_books_state.
  - by rewrite get_book_state.
  - unfold create_book.
    destruct (require_auth_cases (create_book_func body) auth st) as [->|[u ->]]; [done|].
    by apply keyed_by_id_create.
  - unfold update_book.
    destruct (require_auth_cases (update_book_func book_id body) auth st) as [->|[u ->]];
      [done|].
    apply keyed_by_id_update; [|done]. intros d ->. cbn in Hr.
    by apply eq_None_not_Some.
  - unfold delete_book.
    destruct (require_auth_cases (delete_book_func book_id) auth st) as [->|[u ->]]; [done|].
    by apply keyed_by_id_delete.
Qed.

(** X20: from the catalog the module starts with, and whatever the users,
    any sequence of requests none of which is an update with a [__dict__] key
    leaves every book stored under the key of its own id, so that no two
    books of the catalog carry the same id. *)
Theorem ids_unique_without_instance_dict
    (us : gmap string string) (rs : list request) (k1 k2 : key) (b1 b2 : obj) :
  Forall (fun r => ~ assigns_dict r) rs ->
  books (run rs (State us initial_books)) !! k1 = Some b1 ->
  books (run rs (State us initial_books)) !! k2 = Some b2 ->
  b1 !! "id" = b2 !! "id" ->
  k1 = k2.
Proof.
  intros Hrs.
  assert (Hinv : keyed_by_id (books (run rs (State us initial_books)))).
  { assert (forall st, keyed_by_id (books st) -> keyed_by_id (books (run rs st))) as Hrun.
    { unfold run. induction Hrs as [|r rs Hr _ IH]; intros st Hst; [done|].
      cbn [foldl]. apply IH. by apply keyed_by_id_handle. }
    apply Hrun, keyed_by_id_initial. }
  intros H1 H2 Hid.
  destruct (Hinv _ _ H1) as (v1 & Hv1 & Hk1). destruct (Hinv _ _ H2) as (v2 & Hv2 & Hk2).
  rewrite Hv1, Hv2 in Hid. injection Hid as ->. congruence.
Qed.

Lemma register_users_subseteq (salt : string) (body : pyval) (st : state) :
  users st ⊆ users (snd (register salt body st)).
Proof.
  unfold register. destruct (register_checks salt body (users st)) as [[r|[u h]]|e] eqn:Hc;
    [done| |done].
  cbn [snd users set_users]. apply insert_subseteq.
  revert Hc. unfold register_checks.
  destruct (method_get _ "username") as [v|?]; rewrite ?bind_Ok, ?bind_Raise; [|done].
  destruct (method_strip _) as [username|?]; rewrite ?bind_Ok, ?bind_Raise; [|done].
  destruct (method_get _ "password") as [p|?]; rewrite ?bind_Ok, ?bind_Raise; [|done].
  destruct (_ || _); [done|]. destruct (_ <? _)%nat; [done|].
  destruct (bool_decide (is_Some (users st !! username))) eqn:Hin; [done|].
  apply bool_decide_eq_false in Hin. rewrite <- eq_None_not_Some in Hin.
  destruct (validate_password _) as [[msg|]|?]; rewrite ?bind_Ok, ?bind_Raise; [done| |done].
  destruct (hash_password _ _) as [h'|?]; rewrite ?bind_Ok, ?bind_Raise; [|done].
  by intros [= <- <-].
Qed.

Lemma create_users (body : pyval) (g : option string) (st : state) :
  users (snd (create_book_func body g st)) = users st.
Proof.
  unfold create_book_func.
  by destruct (create_book_checks g body (books st)) as [[r|[k b]]|e].
Qed.

Lemma delete_users (book_id : string) (g : option string) (st : state) :
  users (snd (delete_book_func book_id g st)) = users st.
Proof.
  unfold delete_book_func. destruct (get_book_or_404 _ _) as [b|]; [|done].
  by destruct (ensure_owner g b) as [[r|]|e].
Qed.

Lemma handle_users_subseteq (r : request) (st : state) :
  users st ⊆ users (snd (handle r st)).
Proof.
  destruct r as [salt body|auth| |book_id|auth body|auth book_id body|auth book_id];
    cbn [handle].
  - apply register_users_subseteq.
  - unfold me. by destruct (require_auth_cases me_func auth st) as [->|[u ->]].
  - by rewrite list_books_state.
  - by rewrite get_book_state.
  - unfold create_book.
    destruct (require_auth_cases (create_book_func body) auth st) as [->|[u ->]]; [done|].
    by rewrite create_users.
  - unfold update_book.
    destruct (require_auth_cases (update_book_func book_id body) auth st) as [->|[u ->]];
      [done|].
    by rewrite update_users.
  - unfold delete_book.
    destruct (require_auth_cases (delete_book_func book_id) auth st) as [->|[u ->]]; [done|].
    by rewrite delete_users.
Qed.

(** X21: no sequence of requests removes a user or changes a stored hash:
    the users after the sequence include the users before it, and
    credentials the wrapper accepted before it are still accepted after
    it. *)
Theorem users_persist (rs : list request) (st : state) :
  users st ⊆ users (run rs st)
  /\ forall auth u, authenticate (users st) auth = Ok (inr u) ->
                    authenticate (users (run rs st)) auth = Ok (inr u).
Proof.
  assert (Hsub : users st ⊆ users (run rs st)).
  { unfold run. revert st. induction rs as [|r rs IH]; intros st; [done|].
    cbn [foldl]. etrans; [apply handle_users_subseteq | apply IH]. }
  split; [done|]. intros auth u. unfold authenticate.
  destruct auth as [[username password]|]; [|done].
  destruct (_ || _); [done|].
  destruct (users st !! username) as [h|] eqn:Hh; [|done].
  by rewrite (lookup_weaken _ _ _ _ Hh Hsub).
Qed.

(** X22: no request other than an update with a [__dict__] key changes the
    id or the owner of a book that is in the catalog before and after it. *)
Theorem request_keeps_id_owner (r : request) (st : state) (k : key) (b b' : obj) :
  ~ assigns_dict r ->
  books st !! k = Some b ->
  books (snd (handle r st)) !! k = Some b' ->
  b' !! "id" = b !! "id" /\ b' !! "owner" = b !! "owner".
Proof.
  intros Hr Hb.
  assert (Hsame : books st !! k = Some b' -> b' !! "id" = b !! "id" /\ b' !! "owner" = b !! "owner")
    by (rewrite Hb; by intros [= <-]).
  destruct r as [salt body|auth| |book_id|auth body|auth book_id body|auth book_id];
    cbn [handle].
  - by rewrite register_books.
  - unfold me. by destruct (require_auth_cases me_func auth st) as [->|[u ->]].
  - by rewrite list_books_state.
  - by rewrite get_book_state.
  - unfold create_book.
    destruct (require_auth_cases (create_book_func body) auth st) as [->|[u ->]]; [done|].
    unfold create_book_func.
    destruct (create_book_checks (Some u) body (books st)) as [[r|[k0 b0]]|e] eqn:Hc;
      [done| |done].
    apply create_book_checks_stores in Hc
      as (? & ? & ? & ? & ? & ? & ? & ? & ? & _ & _ & _ & _ & _ & Hfresh & _).
    cbn [snd books set_books]. rewrite lookup_insert_ne; [done|]. congruence.
  - unfold update_book.
    destruct (require_auth_cases (update_book_func book_id body) auth st) as [->|[u ->]];
      [done|].
    destruct (decide (k = KStr book_id)) as [->|Hne];
      [|by rewrite update_other_books].
    destruct (truthy body) eqn:Ht.
    + destruct body as [|bb|z|f|s|l|d];
        try (unfold update_book_func, get_book_or_404; rewrite Hb;
             destruct (ensure_owner (Some u) b) as [[r|]|e]; [done| |done];
             unfold py_or; rewrite Ht; done).
      cbn in Hr. apply eq_None_not_Some in Hr.
      destruct (update_keeps_id_owner st book_id (Some u) b d Hb Hr) as (b1 & -> & ? & ?).
      by intros [= <-].
    + rewrite update_falsy_body by done.
      destruct (update_keeps_id_owner st book_id (Some u) b [] Hb eq_refl) as (b1 & -> & ? & ?).
      by intros [= <-].
  - unfold delete_book.
    destruct (require_auth_cases (delete_book_func book_id) auth st) as [->|[u ->]]; [done|].
    unfold delete_book_func, get_book_or_404.
    destruct (books st !! KStr book_id) as [b0|]; [|done].
    destruct (ensure_owner (Some u) b0) as [[r|]|e]; [done| |done].
    cbn [snd books set_books]. intros Hk. apply lookup_delete_Some in Hk as [_ Hk]. auto.
Qed.

(** *** The users file *)

Lemma clean_users_fold (data : dict) (acc : gmap string pyval) (u : string) :
  NoDup data.*1 ->
  foldl (fun cleaned item =>
           match record_hash (snd item) with
           | Some h => <[fst item := h]> cleaned
           | None => cleaned
           end) acc data !! u
  = match dict_get data u ≫= record_hash with
    | Some h => Some h
    | None => acc !! u
    end.
Proof.
  revert acc. induction data as [|[k info] data IH]; intros acc Hnd; [done|].
  cbn [fmap list_fmap fst] in Hnd. apply NoDup_cons in Hnd as [Hk Hnd].
  apply dict_get_None in Hk. cbn [foldl fst snd dict_get]. rewrite IH by done.
  destruct (decide (k = u)) as [->|Hne].
  - rewrite Hk. cbn. destruct (record_hash info); [by rewrite lookup_insert_eq | done].
  - destruct (dict_get data u ≫= record_hash); [done|].
    destruct (record_hash info); [by rewrite lookup_insert_ne | done].
Qed.

(** X23: from a file that holds a JSON object, [load_users] keeps exactly the
    entries whose value is an object with a [password_hash] key, each with
    that hash and nothing else of its record; every other entry is
    dropped. *)
Theorem load_users_keeps_wellformed (data : dict) :
  NoDup data.*1 ->
  exists us, load_users (Holds (PDict data)) = Ok us
             /\ forall u, us !! u = dict_get data u ≫= record_hash.
Proof.
  intros Hnd. eexists. split; [reflexivity|]. intros u. unfold clean_users.
  rewrite clean_users_fold by done. rewrite lookup_empty.
  by destruct (dict_get data u ≫= record_hash).
Qed.

Lemma dict_get_list_to_map (l : dict) (k : string) :
  dict_get l k = (list_to_map l : gmap string pyval) !! k.
Proof.
  induction l as [|[k' v] l IH]; [symmetry; apply lookup_empty|].
  rewrite list_to_map_cons. cbn [dict_get]. destruct (decide (k' = k)) as [->|Hne].
  - by rewrite lookup_insert_eq.
  - by rewrite lookup_insert_ne.
Qed.

Lemma load_users_json (us : gmap string pyval) : load_users (Holds (users_json us)) = Ok us.
Proof.
  unfold users_json. cbn [load_users]. f_equal. apply map_eq. intros u.
  set (record := fun item : string * pyval => (fst item, PDict [("password_hash", snd item)])).
  assert (Hkeys : (record <$> map_to_list us).*1 = (map_to_list us).*1).
  { rewrite <- list_fmap_compose. by apply list_fmap_ext. }
  assert (Hmap : record <$> map_to_list us
                 = prod_map id (fun h => PDict [("password_hash", h)]) <$> map_to_list us).
  { apply list_fmap_ext. by intros ? []. }
  unfold clean_users. rewrite clean_users_fold by (rewrite Hkeys; apply NoDup_fst_map_to_list).
  rewrite lookup_empty, dict_get_list_to_map, Hmap.
  rewrite list_to_map_fmap, list_to_map_to_list, lookup_fmap.
  destruct (us !! u) as [h|]; [|done]. cbn. by rewrite decide_True.
Qed.

(** X24: what [save_users] writes, [load_users] reads back: after a write
    that succeeds, loading the file gives the users that were saved,
    whatever the file held before. *)
Theorem save_then_load (us : gmap string pyval) (f : users_file) :
  load_users (save_users us Written f) = Ok us.
Proof. apply load_users_json. Qed.

(** X25: at start-up the module fails in two cases only: reading or
    decoding the file raises an exception that is neither [OSError] nor
    [JSONDecodeError], which [load_users] does not catch; or no user was
    loaded and the library raises while hashing the default password.
    Otherwise the users in memory are never empty: a non-empty loaded
    mapping is kept and nothing is written; an empty one gets the single
    account [admin] with the hash of ["admin123"], which is saved. When that
    write succeeds, or none was needed, the file loads back to the users in
    memory. *)
Theorem startup_users (salt : string) (w : write_result) (f : users_file) :
  (exists e, f = Failing e /\ startup salt w f = Raise e)
  \/ (exists e, load_users f = Ok ∅
                /\ generate_password_hash salt "admin123" = Raise e
                /\ startup salt w f = Raise e)
  \/ exists loaded us f',
       load_users f = Ok loaded /\ startup salt w f = Ok (us, f') /\ us <> ∅
       /\ (loaded <> ∅ -> us = loaded /\ f' = f)
       /\ (loaded = ∅ ->
           exists h, generate_password_hash salt "admin123" = Ok h
                     /\ us = {["admin" := PStr h]}
                     /\ f' = save_users us w f)
       /\ (loaded <> ∅ \/ w = Written -> load_users f' = Ok us).
Proof.
  unfold startup. destruct (load_users f) as [loaded|e] eqn:Hload.
  - right. rewrite bind_Ok. destruct (decide (loaded = ∅)) as [->|Hne].
    + destruct (generate_password_hash salt "admin123") as [h|e] eqn:Hgen.
      * right. rewrite bind_Ok. eexists ∅, _, _. split; [done|]. split; [done|].
        split; [apply insert_non_empty|]. split; [done|]. split; [by eexists|].
        intros [?| ->]; [done|]. apply load_users_json.
      * left. exists e. by rewrite bind_Raise.
    + right. exists loaded, loaded, f. repeat split; done.
  - left. destruct f as [| | |e'|[]]; try discriminate Hload.
    cbn in Hload. injection Hload as <-. by exists e'.
Qed.

(** X26: [register] saves after it records: when it answers 201 the file is
    rewritten from the users in memory, and after a write that succeeds it
    loads back to them; when the write fails the answer is still 201 and the
    user is still recorded in memory. A request that is not answered 201
    leaves the file untouched. The answer and the store are those of
    [register] in every case. *)
Theorem register_saving_reconciles
    (salt : string) (body : pyval) (w : write_result) (st : state) (f : users_file) :
  fst (register_saving salt body w st f) = register salt body st
  /\ ((exists resp, fst (register salt body st) = Ok resp /\ resp_status resp = 201%Z)
      /\ snd (register_saving salt body w st f)
         = save_users (PStr <$> users (snd (register salt body st))) w f
      /\ (w = Written ->
          load_users (snd (register_saving salt body w st f))
          = Ok (PStr <$> users (snd (register salt body st))))
      \/ snd (register salt body st) = st /\ snd (register_saving salt body w st f) = f).
Proof.
  unfold register_saving, register.
  destruct (register_checks salt body (users st)) as [[r|[u h]]|e]; cbn [fst snd].
  - split; [done|]. by right.
  - split; [done|]. left. split; [by eexists|]. split; [done|].
    intros ->. apply load_users_json.
  - split; [done|]. by right.
Qed.

(** X16: for the owner of a book, a body in which [year] or [stock] is
    present and [int] rejects it, neither being an infinite float, is
    answered 400 by [update_book] and changes nothing, whatever other fields
    it carries. *)
Theorem update_rejects_bad_integer
    (auth : option (string * string)) (book_id u f : string) (b : obj) (d : dict) (v : pyval)
    (st : state) :
  authenticate (users st) auth = Ok (inr u) ->
  books st !! KStr book_id = Some b ->
  b !! "owner" = Some (PStr u) ->
  (forall k w, k = "year" \/ k = "stock" -> dict_get d k = Some w ->
               py_int w <> Raise OverflowError) ->
  f = "year" \/ f = "stock" ->
  dict_get d f = Some v -> is_ok (py_int v) = false ->
  exists resp, update_book auth book_id (PDict d) st = (Ok resp, st)
               /\ resp_status resp = 400%Z.
Proof.
  intros Hauth Hb Ho Hfin Hf Hv Hbad. unfold update_book, require_auth. rewrite Hauth.
  assert (ensure_owner (Some u) b = Ok None) as Hown.
  { unfold ensure_owner, getattr.
    rewrite bool_decide_eq_false_2 by (by eapply authenticate_nonempty).
    rewrite Ho, bind_Ok. cbn [py_ne_str]. by rewrite bool_decide_eq_true_2. }
  destruct (update_uncoercible_rejected st book_id (Some u) b d f v Hb Hown Hfin Hf Hv Hbad)
    as [msg ->].
  by eexists.
Qed.

(** X27: a caller authenticated as [u] is refused with 403 by update, whatever
    the body, and by delete, on a book whose [owner] attribute is anything
    but the string [u]; the store is left as it was. *)
Theorem non_owner_forbidden
    (st : state) (auth : option (string * string)) (u book_id : string)
    (b : obj) (owner body : pyval) :
  authenticate (users st) auth = Ok (inr u) ->
  books st !! KStr book_id = Some b ->
  b !! "owner" = Some owner ->
  owner <> PStr u ->
  update_book auth book_id body st = (Ok forbidden, st)
  /\ delete_book auth book_id st = (Ok forbidden, st).
Proof.
  intros Hauth Hb Howner Hne.
  pose proof (authenticate_nonempty _ _ _ Hauth) as Hu.
  unfold update_book, delete_book, require_auth. rewrite Hauth.
  by apply non_owner_forbidden_func with (b := b) (owner := owner).
Qed.

(** X28: on a catalog of intact books, none with a value nested beyond the
    recursion limit, whose keys [jsonify] can sort, the reads are public and
    total: the listing answers 200 with the content of every book under its
    key, the single read answers 200 with the content of the book under the
    id, and neither takes credentials or changes the store. *)
Theorem intact_catalog_readable (st : state) :
  map_Forall (fun _ b => is_book b /\ shallow_book b) (books st) ->
  sortable_keys (books st) ->
  list_books st = (Ok (Response (Listing (content <$> books st)) 200 []), st)
  /\ forall book_id b,
       books st !! KStr book_id = Some b ->
       get_book book_id st = (Ok (jsonify (content b) 200), st).
Proof.
  intros Hall Hsort. split.
  - unfold list_books. rewrite decide_True.
    2:{ intros k b Hk. destruct (Hall _ _ Hk) as [Hbook Hshallow]. unfold book_to_dict.
        by rewrite (asdict_is_book _ Hbook Hshallow). }
    rewrite decide_True by done. do 4 f_equal.
    apply map_fmap_ext. intros k b Hk. destruct (Hall _ _ Hk) as [Hbook Hshallow].
    unfold book_to_dict. by rewrite (asdict_is_book _ Hbook Hshallow).
  - intros book_id b Hb. destruct (Hall _ _ Hb) as [Hbook Hshallow].
    unfold get_book, get_book_or_404, book_to_dict.
    by rewrite Hb, (asdict_is_book _ Hbook Hshallow).
Qed.

End Coverage.

(** ** The further properties at concrete requests *)

Lemma register_existing_username_refused_witness :
  is_Some (users demo_state !! strip " admin ")
  /\ register "salt" (PDict [("username", PStr " admin "); ("password", PInt 7)]) demo_state
     = (Ok (jsonify (error_body "username already exists") 400), demo_state).
Proof.
  assert (H1 : is_Some (users demo_state !! strip " admin ")) by (by eexists).
  split; [exact H1|].
  refine (register_existing_username_refused "salt" _ " admin " (PInt 7) demo_state
            _ _ _ _ H1); [reflexivity | reflexivity | reflexivity | vm_compute; lia].
Defined.

Lemma register_accepts_witness :
  users demo_state !! strip "dave " = None
  /\ register "salt" (PDict [("username", PStr "dave "); ("password", PStr "Passw0rd")])
       demo_state
     = (Ok (jsonify (PDict [("message", PStr "User registered successfully")]) 201),
        set_users demo_state (<[strip "dave " := "plain$$Passw0rd"]> (users demo_state))).
Proof.
  assert (H1 : users demo_state !! strip "dave " = None) by reflexivity.
  split; [exact H1|].
  refine (register_accepts "salt" _ "dave " "Passw0rd" "plain$$Passw0rd" "0" "P" demo_state
            _ _ _ H1 _ _ _ _ _ _);
    try reflexivity; try (vm_compute; lia); apply list_elem_of_In; cbn; tauto.
Defined.

Lemma plain_check_generate (s pw h : string) :
  plain_generate s pw = Ok h -> plain_check h pw = Ok true.
Proof.
  unfold plain_check, plain_generate. intros [= <-]. by rewrite bool_decide_eq_true_2.
Qed.

Lemma register_then_authenticate_witness :
  register "salt" (PDict [("username", PStr "dave "); ("password", PStr "Passw0rd")]) demo_state
  = (Ok (jsonify (PDict [("message", PStr "User registered successfully")]) 201),
     set_users demo_state (<["dave" := "plain$$Passw0rd"]> (users demo_state)))
  /\ authenticate
       (users (set_users demo_state (<["dave" := "plain$$Passw0rd"]> (users demo_state))))
       (Some (strip "dave ", "Passw0rd"))
     = Ok (inr (strip "dave ")).
Proof.
  assert (H1 : register "salt"
                 (PDict [("username", PStr "dave "); ("password", PStr "Passw0rd")]) demo_state
               = (Ok (jsonify (PDict [("message", PStr "User registered successfully")]) 201),
                  set_users demo_state (<["dave" := "plain$$Passw0rd"]> (users demo_state))))
    by reflexivity.
  split; [exact H1|].
  exact (register_then_authenticate "salt"
           [("username", PStr "dave "); ("password", PStr "Passw0rd")]
           "dave " "Passw0rd" demo_state _ _
           plain_check_generate eq_refl eq_refl H1 eq_refl).
Defined.

Lemma register_answers_on_strings_witness :
  (exists resp,
     fst (register "salt" (PDict [("username", PNone); ("password", PStr "Passw0rd")])
            demo_state) = Ok resp
     /\ (resp_status resp = 201%Z \/ resp_status resp = 400%Z))
  \/ (exists password e,
        dict_get [("username", PNone); ("password", PStr "Passw0rd")] "password"
        = Some (PStr password)
        /\ generate_password_hash "salt" password = Raise e
        /\ register "salt" (PDict [("username", PNone); ("password", PStr "Passw0rd")])
             demo_state = (Raise e, demo_state)).
Proof.
  refine (register_answers_on_strings "salt"
            [("username", PNone); ("password", PStr "Passw0rd")] demo_state _ _).
  - intros v [= <-]. by left.
  - intros v [= <-]. right. by eexists.
Defined.

Lemma create_bad_integer_rejected_witness :
  py_int (PStr "MMXX") = Raise ValueError
  /\ create_book_func (PDict bad_year_payload) (Some "carol") demo_state
     = (Ok (jsonify (error_body "year and stock must be integers") 400), demo_state).
Proof.
  assert (H1 : py_int (PStr "MMXX") = Raise ValueError) by reflexivity.
  split; [exact H1|].
  refine (create_bad_integer_rejected bad_year_payload (Some "carol") demo_state
            (PStr "BK010") (PStr "MMXX") (PInt 1) (KStr "BK010") _ _ _ _ _ _ _ _ _ _ _ _ _);
    try reflexivity; try (by eexists); try (rewrite H1; discriminate); discriminate.
Defined.

Lemma create_answers_on_wellformed_witness :
  exists resp,
    fst (create_book_func (PDict [("id", PStr "BK777"); ("year", PStr "MMXX")]) (Some "carol")
           demo_state) = Ok resp
    /\ (resp_status resp = 201%Z \/ resp_status resp = 400%Z).
Proof.
  refine (create_answers_on_wellformed [("id", PStr "BK777"); ("year", PStr "MMXX")]
            "carol" demo_state _ _ _).
  - intros v [= <-]. right. by eexists.
  - intros k v [->| ->]; [intros [= <-]; discriminate | intros [=]].
  - intros k v Hk. cbn [dict_get] in Hk.
    destruct (decide ("id" = k)); [by injection Hk as <-|].
    destruct (decide ("year" = k)); [by injection Hk as <-|]. discriminate Hk.
Defined.

Lemma bk001_is_book : is_book bk001.
Proof. split; [repeat constructor; by eexists | reflexivity]. Defined.

Lemma bk001_shallow : shallow_book bk001.
Proof.
  repeat constructor; intros v Hv; vm_compute in Hv; injection Hv as <-; reflexivity.
Defined.

Lemma update_applies_fields_witness :
  ensure_owner (Some "admin") bk001 = Ok None
  /\ exists b',
       update_book_func "BK001" (PDict stock_payload) (Some "admin") demo_state
       = (Ok (jsonify (PDict [("message", PStr "Book updated"); ("book", content b')]) 200),
          set_books demo_state (<[KStr "BK001" := b']> (books demo_state)))
       /\ b' !! "stock" = Some (PInt 10)
       /\ b' !! "owner" = Some (PStr "admin")
       /\ b' !! "colour" = None.
Proof.
  assert (H1 : ensure_owner (Some "admin") bk001 = Ok None) by reflexivity.
  split; [exact H1|].
  destruct (update_applies_fields demo_state "BK001" (Some "admin") bk001 stock_payload)
    as (b' & Hupd & _ & _ & Hf).
  - reflexivity.
  - exact H1.
  - exact bk001_is_book.
  - exact bk001_shallow.
  - apply (bool_decide_unpack _). reflexivity.
  - intros k Hk. apply list_elem_of_In in Hk. cbn in Hk.
    destruct Hk as [<-|[<-|[<-|[]]]]; reflexivity.
  - intros k v [->| ->]; [intros [=] | intros [= <-]; reflexivity].
  - intros k v Hk. unfold stock_payload in Hk. cbn [dict_get] in Hk.
    repeat (destruct (decide _) in Hk; [by injection Hk as <-|]). discriminate Hk.
  - exists b'. split; [exact Hupd|]. rewrite !Hf. repeat split; reflexivity.
Defined.

Lemma update_unknown_keys_noop_witness :
  ensure_owner (Some "admin") bk001 = Ok None
  /\ update_book_func "BK001" (PDict [("colour", PStr "red")]) (Some "admin") demo_state
     = (Ok (jsonify (PDict [("message", PStr "Book updated"); ("book", content bk001)]) 200),
        demo_state).
Proof.
  assert (H1 : ensure_owner (Some "admin") bk001 = Ok None) by reflexivity.
  split; [exact H1|].
  refine (update_unknown_keys_noop demo_state "BK001" (Some "admin") bk001
            [("colour", PStr "red")] _ H1 bk001_is_book bk001_shallow _); [reflexivity|].
  intros k Hk. apply list_elem_of_In in Hk. cbn in Hk. destruct Hk as [<-|[]]. reflexivity.
Defined.

Lemma delete_by_owner_witness :
  authenticate (users demo_state) (Some ("admin", "admin123")) = Ok (inr "admin")
  /\ exists st',
       delete_book (Some ("admin", "admin123")) "BK001" demo_state
       = (Ok (jsonify (PDict [("message", PStr "Book deleted")]) 200), st')
       /\ users st' = users demo_state
       /\ books st' !! KStr "BK001" = None
       /\ forall k, k <> KStr "BK001" -> books st' !! k = books demo_state !! k.
Proof.
  assert (H1 : authenticate (users demo_state) (Some ("admin", "admin123")) = Ok (inr "admin"))
    by reflexivity.
  split; [exact H1|].
  refine (delete_by_owner (Some ("admin", "admin123")) "BK001" "admin" bk001 demo_state
            H1 _ _); reflexivity.
Defined.

Lemma update_rejects_bad_integer_witness :
  authenticate (users demo_state) (Some ("admin", "admin123")) = Ok (inr "admin")
  /\ exists resp,
       update_book (Some ("admin", "admin123")) "BK001"
         (PDict [("title", PStr "New"); ("stock", PList [])]) demo_state
       = (Ok resp, demo_state)
       /\ resp_status resp = 400%Z.
Proof.
  assert (H1 : authenticate (users demo_state) (Some ("admin", "admin123")) = Ok (inr "admin"))
    by reflexivity.
  split; [exact H1|].
  refine (update_rejects_bad_integer (Some ("admin", "admin123")) "BK001" "admin" "stock"
            bk001 [("title", PStr "New"); ("stock", PList [])] (PList []) demo_state
            H1 _ _ _ _ _ _); try reflexivity; [|by right].
  intros k w [->| ->]; [intros [=] | intros [= <-]; discriminate].
Defined.

Lemma list_agrees_with_get_witness :
  exists m,
    list_books demo_state = (Ok (Response (Listing m) 200 []), demo_state)
    /\ dom m = dom (books demo_state)
    /\ get_book "BK002" demo_state
       = (Ok (match m !! KStr "BK002" with
              | Some d => jsonify d 200
              | None => not_found
              end), demo_state).
Proof.
  assert (H1 : list_books demo_state
               = (Ok (Response
                        (Listing ((fun book => dict_of (book_to_dict book))
                                    <$> books demo_state)) 200 []),
                  demo_state)) by reflexivity.
  destruct (list_agrees_with_get demo_state demo_state _ H1) as (m & Hm & _ & Hdom & Hget).
  exists m. split; [by rewrite H1, Hm|]. split; [exact Hdom|]. apply Hget.
Defined.

Lemma ids_unique_without_instance_dict_witness :
  Forall (fun r => ~ assigns_dict r) two_requests
  /\ books (run two_requests demo_state) !! KStr "BK999"
     = Some (Book (PStr "BK999") (PStr "X") (PStr "Y") (PStr "Z") (PInt 2020) (PStr "G")
                  (PInt 3) (PStr "carol"))
  /\ books (run two_requests demo_state) !! KStr "BK002" = None.
Proof.
  assert (H1 : Forall (fun r => ~ assigns_dict r) two_requests)
    by (repeat constructor; intros []).
  assert (H2 : books (run two_requests demo_state) !! KStr "BK999"
               = Some (Book (PStr "BK999") (PStr "X") (PStr "Y") (PStr "Z") (PInt 2020)
                            (PStr "G") (PInt 3) (PStr "carol"))) by (vm_compute; reflexivity).
  split; [exact H1|]. split; [exact H2|].
  destruct (books (run two_requests demo_state) !! KStr "BK002") as [b2|] eqn:Hb2; [|reflexivity].
  exfalso.
  assert (Hid : b2 !! "id" = Some (PStr "BK999")).
  { revert Hb2. vm_compute. discriminate. }
  assert (KStr "BK999" = KStr "BK002") as Hk; [|discriminate Hk].
  refine (ids_unique_without_instance_dict (users demo_state) two_requests _ _ _ b2
            H1 H2 Hb2 _).
  rewrite Hid. reflexivity.
Defined.

Lemma request_keeps_id_owner_witness :
  ~ assigns_dict (PutBook (Some ("admin", "admin123")) "BK001" (PDict stock_payload))
  /\ exists b',
       books (snd (handle (PutBook (Some ("admin", "admin123")) "BK001" (PDict stock_payload))
                     demo_state)) !! KStr "BK001" = Some b'
       /\ b' !! "id" = bk001 !! "id" /\ b' !! "owner" = bk001 !! "owner".
Proof.
  assert (H1 : ~ assigns_dict (PutBook (Some ("admin", "admin123")) "BK001"
                                 (PDict stock_payload))) by (by intros [? [=]]).
  split; [exact H1|].
  destruct (books (snd (handle (PutBook (Some ("admin", "admin123")) "BK001"
                                  (PDict stock_payload)) demo_state)) !! KStr "BK001")
    as [b'|] eqn:Hb'; [|revert Hb'; vm_compute; discriminate].
  exists b'. split; [reflexivity|].
  refine (request_keeps_id_owner _ demo_state (KStr "BK001") bk001 b' H1 _ Hb').
  reflexivity.
Defined.

Lemma load_users_keeps_wellformed_witness :
  NoDup users_file_data.*1
  /\ exists us, load_users (Holds (PDict users_file_data)) = Ok us
                /\ us !! "alice" = Some (PStr "h1")
                /\ us !! "bob" = None /\ us !! "carol" = None.
Proof.
  assert (H1 : NoDup users_file_data.*1) by (apply (bool_decide_unpack _); reflexivity).
  split; [exact H1|].
  destruct (load_users_keeps_wellformed users_file_data H1) as (us & Hload & Hus).
  exists us. split; [exact Hload|]. rewrite !Hus. repeat split; reflexivity.
Defined.

Lemma non_owner_forbidden_witness :
  authenticate (users demo_state) (Some ("carol", "Passw0rd")) = Ok (inr "carol")
  /\ update_book (Some ("carol", "Passw0rd")) "BK001" (PDict [("stock", PInt 0)]) demo_state
     = (Ok forbidden, demo_state)
  /\ delete_book (Some ("carol", "Passw0rd")) "BK001" demo_state = (Ok forbidden, demo_state).
Proof.
  assert (H1 : authenticate (users demo_state) (Some ("carol", "Passw0rd")) = Ok (inr "carol"))
    by reflexivity.
  split; [exact H1|].
  refine (non_owner_forbidden demo_state (Some ("carol", "Passw0rd")) "carol" "BK001" bk001
            (PStr "admin") (PDict [("stock", PInt 0)]) H1 _ _ _);
    [reflexivity | reflexivity | discriminate].
Defined.

Lemma initial_books_intact : map_Forall (fun _ b => is_book b /\ shallow_book b) initial_books.
Proof.
  intros k b. unfold initial_books. rewrite !lookup_insert.
  repeat case_decide; subst; try discriminate; intros [= <-];
    (split; [split; [repeat constructor; by eexists | reflexivity]|]);
    repeat constructor; intros v Hv; vm_compute in Hv; injection Hv as <-; reflexivity.
Defined.

Lemma intact_catalog_readable_witness :
  sortable_keys (books demo_state)
  /\ list_books demo_state
     = (Ok (Response (Listing (content <$> books demo_state)) 200 []), demo_state)
  /\ get_book "BK001" demo_state = (Ok (jsonify (content bk001) 200), demo_state).
Proof.
  assert (H1 : sortable_keys (books demo_state)).
  { intros k1 b1 Hk1 k2 b2 Hk2. revert Hk1 Hk2. unfold demo_state, initial_books.
    cbn [books]. rewrite !lookup_insert.
    repeat case_decide; subst; try discriminate; reflexivity. }
  split; [exact H1|].
  destruct (intact_catalog_readable demo_state initial_books_intact H1) as [Hlist Hget].
  split; [exact Hlist|]. exact (Hget "BK001" bk001 eq_refl).
Defined.
